(** * DNS zone resolution, validation and record pre-creation

    A shallow embedding of [upup/pkg/fi/cloudup/dns.go]: [findZone],
    [validateDNS], [precreateDNS] and [buildPrecreateDNSHostnames].

    Go interface values of the DNS provider are records of what their
    methods return; the calls the code makes (provider, resolver,
    environment, logger) are collected in a trace, in program order.
    Accessors of provider objects ([ID()], [Name()], [Rrdatas()], ...)
    and [rrs.New] are read as plain functions.  Go strings are byte
    strings, as [string] is here.  Pointers in the cluster and in the
    resolver's answer ([[]*EtcdMemberSpec], [[]*net.NS]) are taken to be
    non-nil. *)

From Stdlib Require Import ZArith.
From stdpp Require Import base option list strings gmap fin_maps.

Local Open Scope Z_scope.

(** ** Go's [strings] package *)

Module strings.

(** [strings.HasSuffix(s, suffix)]:
    [len(s) >= len(suffix) && s[len(s)-len(suffix):] == suffix]. *)
Definition HasSuffix (s suffix : string) : bool :=
  (String.length suffix <=? String.length s)%nat &&
  String.eqb
    (String.substring (String.length s - String.length suffix)
                      (String.length suffix) s)
    suffix.

(** [strings.TrimSuffix(s, suffix)]: [s] without the trailing [suffix],
    or [s] itself when it does not end with [suffix]. *)
Definition TrimSuffix (s suffix : string) : string :=
  if HasSuffix s suffix
  then String.substring 0 (String.length s - String.length suffix) s
  else s.

End strings.

(** ** Results, errors and the call trace *)

Inductive result (E A : Type) : Type :=
| Ok (a : A)
| Err (e : E).
Arguments Ok {E A} a.
Arguments Err {E A} e.

(** A Go [error] handed back by a collaborator is kept as its message. *)
Definition goerror : Type := string.

(** The errors the three functions build with [fmt.Errorf], one
    constructor per format string, carrying the format's arguments. *)
Inductive Error : Type :=
| ErrBuildingDNSProvider (err : goerror)
    (* "error building DNS provider: %v" *)
| ErrGettingZonesProvider
    (* "error getting DNS zones provider" *)
| ErrListingZones (err : goerror)
    (* "error listing DNS zones: %v" *)
| ErrCannotFindZone (dnsZone : string)
    (* "cannot find DNS Zone %q.  Please pre-create the zone and set up NS
       records so that it resolves." *)
| ErrMultipleZones (dnsZone : string)
    (* "found multiple DNS Zones matching %q" *)
| ErrNSLookup (dnsName : string) (err : goerror)
    (* "error doing DNS lookup for NS records for %q: %v" *)
| ErrNSRecordsNotFound (dnsName : string)
    (* "NS records not found for %q - please make sure they are correctly
       configured" *)
| ErrGettingRecords (zoneName : string)
    (* "error getting DNS resource records for %q" *)
| ErrListingRecords (zoneName : string) (err : goerror)
    (* "error listing DNS resource records for %q: %v" *)
| ErrPrecreating (err : goerror)
    (* "Error pre-creating DNS records: %v" *)
| PanicIndexOutOfRange.
    (* the runtime panic of an index expression out of range *)

(** The error taxonomy of the design, and where each error falls. *)
Inductive ErrorKind : Type :=
| ProviderUnavailable
| ZoneLookupFailed
| ZoneNotFound
| AmbiguousZone
| NSLookupFailed
| NoNSRecords
| RecordListFailed
| ChangesetApplyFailed
| RuntimePanic.

Definition kind (e : Error) : ErrorKind :=
  match e with
  | ErrBuildingDNSProvider _ => ProviderUnavailable
  | ErrGettingZonesProvider => ProviderUnavailable
  | ErrListingZones _ => ZoneLookupFailed
  | ErrCannotFindZone _ => ZoneNotFound
  | ErrMultipleZones _ => AmbiguousZone
  | ErrNSLookup _ _ => NSLookupFailed
  | ErrNSRecordsNotFound _ => NoNSRecords
  | ErrGettingRecords _ => RecordListFailed
  | ErrListingRecords _ _ => RecordListFailed
  | ErrPrecreating _ => ChangesetApplyFailed
  | PanicIndexOutOfRange => RuntimePanic
  end.

(** ** The DNS provider ([dnsprovider]) *)

(** [rrstype.RrsType] is a string type. *)
Definition RrsType : Type := string.

Module rrstype.
Definition A : RrsType := "A".
End rrstype.

(** [dnsprovider.ResourceRecordSet]: what [Name()], [Rrdatas()], [Ttl()]
    and [Type()] return. *)
Record ResourceRecordSet : Type := {
  rr_Name : string;
  rr_Rrdatas : list string;
  rr_Ttl : Z;
  rr_Type : RrsType;
}.

(** [dnsprovider.ResourceRecordSets]: [List()] and, for a changeset started
    on it, what [Apply()] answers to the additions it holds. *)
Record ResourceRecordSets : Type := {
  rrs_List : result goerror (list ResourceRecordSet);
  rrs_Apply : list ResourceRecordSet → option goerror;
}.

(** [rrs.New(name, rrdatas, ttl, rrstype)]. *)
Definition rrs_New (name : string) (rrdatas : list string) (ttl : Z)
    (t : RrsType) : ResourceRecordSet :=
  {| rr_Name := name; rr_Rrdatas := rrdatas; rr_Ttl := ttl; rr_Type := t |}.

(** [dnsprovider.Zone]: [ID()], [Name()] and [ResourceRecordSets()], whose
    second result [ok] is [false] for [None]. *)
Record Zone : Type := {
  zone_ID : string;
  zone_Name : string;
  zone_ResourceRecordSets : option ResourceRecordSets;
}.

(** [dnsprovider.Zones]. *)
Record Zones : Type := {
  zones_List : result goerror (list Zone);
}.

(** [dnsprovider.Interface]. *)
Record DNSInterface : Type := {
  dns_Zones : option Zones;
}.

(** [fi.Cloud], as far as this file uses it. *)
Record Cloud : Type := {
  cloud_DNS : result goerror DNSInterface;
}.

(** ** The cluster ([api.Cluster]) *)

Record EtcdMemberSpec : Type := {
  member_Name : string;
}.

Record EtcdClusterSpec : Type := {
  etcd_Name : string;
  etcd_Members : list EtcdMemberSpec;
}.

Record ClusterSpec : Type := {
  DNSZone : string;
  MasterPublicName : string;
  MasterInternalName : string;
  EtcdClusters : list EtcdClusterSpec;
}.

Record ObjectMeta : Type := {
  Name : string;
}.

Record Cluster : Type := {
  cluster_ObjectMeta : ObjectMeta;
  cluster_Spec : ClusterSpec;
}.

(** ** The process: environment, feature flags, resolver *)

(** [net.NS]. *)
Record NS : Type := {
  Host : string;
}.

Record Process : Type := {
  (** the environment [os.Getenv] reads *)
  environ : gmap string string;
  (** [featureflag.DNSPreCreate.Enabled()] *)
  DNSPreCreate : bool;
  (** [net.LookupNS] *)
  LookupNS : string → result goerror (list NS);
}.

(** [os.Getenv(key)]: the value, or the empty string when [key] is unset. *)
Definition Getenv (p : Process) (key : string) : string :=
  default "" (environ p !! key).

(** ** Calls and log lines *)

Inductive Severity : Type :=
| Info
| Warning
| V (level : nat).

(** One constructor per [glog] call site, with the values it formats. *)
Inductive LogLine : Type :=
| LogPrivateDNS
| LogDoingLookup (dnsName : string)
| LogIgnoringNSCheck
| LogFoundNS (dnsName : string) (hosts : list string)
| LogSkippingPrecreate
| LogNoRecords
| LogPrecreating
| LogFoundRecord (dnsHostname : string) (rrdatas : list string)
| LogFoundEmptyRecord (dnsHostname : string)
| LogPrecreatingRecord (dnsHostname ip : string)
| LogPrecreated (created : list string)
| LogNoMasterPublicName
| LogNoMasterInternalName.

(** What the code does to the outside.  [dnsprovider]'s changeset offers
    [Add], [Remove] and [Apply]; [Apply] is recorded with the batch it
    submits, and the record listing with what it returned. *)
Inductive Event : Type :=
| CallCloudDNS
| CallDNSZones
| CallZonesList
| CallZoneResourceRecordSets (zoneID : string)
| CallRRSList (res : result goerror (list ResourceRecordSet))
| CallStartChangeset
| CallChangesetAdd (r : ResourceRecordSet)
| CallChangesetRemove (r : ResourceRecordSet)
| CallChangesetApply (batch : list ResourceRecordSet)
| CallLookupNS (dnsName : string)
| CallGetenv (key : string)
| Glog (sev : Severity) (line : LogLine).

(** ** A writer monad with errors *)

(** What a function returns and the trace of what it did.  An error stops
    the rest of the function; the trace up to the error is kept. *)
Definition M (A : Type) : Type := result Error A * list Event.

Definition fail {A} (e : Error) : M A := (Err e, []).

Definition emit (ev : Event) : M unit := (Ok tt, [ev]).

Definition glog (sev : Severity) (line : LogLine) : M unit :=
  emit (Glog sev line).

#[global] Instance M_ret : MRet M := λ A a, (Ok a, []).

#[global] Instance M_bind : MBind M := λ A B k m,
  match m with
  | (Ok a, t) => let '(r, t') := k a in (r, t ++ t')
  | (Err e, t) => (Err e, t)
  end.

Definition outcome {A} (m : M A) : result Error A := m.1.
Definition trace {A} (m : M A) : list Event := m.2.

(** [for _, x := range xs { s = body(s, x) }] *)
Fixpoint for_range {A S} (xs : list A) (body : S → A → M S) (s : S) : M S :=
  match xs with
  | [] => mret s
  | x :: xs' => s' ← body s x; for_range xs' body s'
  end.

(** ** [findZone] *)

Definition findZone (cluster : Cluster) (cloud : Cloud) : M Zone :=
  emit CallCloudDNS;;
  match cloud_DNS cloud with
  | Err err => fail (ErrBuildingDNSProvider err)
  | Ok dns =>
    emit CallDNSZones;;
    match dns_Zones dns with
    | None => fail ErrGettingZonesProvider
    | Some zonesProvider =>
      emit CallZonesList;;
      match zones_List zonesProvider with
      | Err err => fail (ErrListingZones err)
      | Ok zones =>
        let findName :=
          strings.TrimSuffix (DNSZone (cluster_Spec cluster)) "." in
        matches ← for_range zones (λ matches zone,
          let id := zone_ID zone in
          let name := strings.TrimSuffix (zone_Name zone) "." in
          if String.eqb id (DNSZone (cluster_Spec cluster))
             || String.eqb name findName
          then mret (matches ++ [zone])
          else mret matches) [];
        if (length matches =? 0)%nat then
          fail (ErrCannotFindZone (DNSZone (cluster_Spec cluster)))
        else if (1 <? length matches)%nat then
          fail (ErrMultipleZones (DNSZone (cluster_Spec cluster)))
        else
          match matches !! 0%nat with
          | Some zone => mret zone
          | None => fail PanicIndexOutOfRange
          end
      end
    end
  end.

(** ** [validateDNS] *)

Section Validate.

(** [model.KopsModelContext.UsePrivateDNS] lives in [pkg/model], outside
    this file: the function is taken as given, as a boolean derived from
    the cluster. *)
Variable UsePrivateDNS : Cluster → bool.

Definition validateDNS (p : Process) (cluster : Cluster) (cloud : Cloud)
    : M unit :=
  if UsePrivateDNS cluster then
    glog Info LogPrivateDNS;;
    mret tt
  else
    zone ← findZone cluster cloud;
    let dnsName := strings.TrimSuffix (zone_Name zone) "." in
    glog (V 2) (LogDoingLookup dnsName);;
    emit (CallLookupNS dnsName);;
    match LookupNS p dnsName with
    | Err err => fail (ErrNSLookup dnsName err)
    | Ok ns =>
      (if (length ns =? 0)%nat then
         emit (CallGetenv "DNS_IGNORE_NS_CHECK");;
         if String.eqb (Getenv p "DNS_IGNORE_NS_CHECK") "" then
           fail (ErrNSRecordsNotFound dnsName)
         else
           glog Warning LogIgnoringNSCheck
       else
         hosts ← for_range ns (λ hosts n, mret (hosts ++ [Host n])) [];
         glog (V 2) (LogFoundNS dnsName hosts));;
      mret tt
    end.

End Validate.

(** ** [buildPrecreateDNSHostnames] *)

Definition buildPrecreateDNSHostnames (cluster : Cluster) : M (list string) :=
  let dnsInternalSuffix := ".internal." +:+ Name (cluster_ObjectMeta cluster) in
  let dnsHostnames : list string := [] in
  dnsHostnames ←
    (if negb (String.eqb (MasterPublicName (cluster_Spec cluster)) "") then
       mret (dnsHostnames ++ [MasterPublicName (cluster_Spec cluster)])
     else
       glog Warning LogNoMasterPublicName;;
       mret dnsHostnames);
  dnsHostnames ←
    (if negb (String.eqb (MasterInternalName (cluster_Spec cluster)) "") then
       mret (dnsHostnames ++ [MasterInternalName (cluster_Spec cluster)])
     else
       glog Warning LogNoMasterInternalName;;
       mret dnsHostnames);
  for_range (EtcdClusters (cluster_Spec cluster)) (λ dnsHostnames etcdCluster,
    let etcClusterName := "etcd-" +:+ etcd_Name etcdCluster in
    let etcClusterName :=
      if String.eqb (etcd_Name etcdCluster) "main" then "etcd"
      else etcClusterName in
    for_range (etcd_Members etcdCluster) (λ dnsHostnames etcdClusterMember,
      let name := etcClusterName +:+ "-" +:+ member_Name etcdClusterMember
                    +:+ dnsInternalSuffix in
      mret (dnsHostnames ++ [name])) dnsHostnames) dnsHostnames.

(** ** [precreateDNS] *)

(** This IP is from TEST-NET-3. *)
Definition PlaceholderIP : string := "203.0.113.123".
Definition PlaceholderTTL : Z := 10.

Definition precreateDNS (p : Process) (cluster : Cluster) (cloud : Cloud)
    : M unit :=
  if negb (DNSPreCreate p) then
    glog (V 4) LogSkippingPrecreate;;
    mret tt
  else
    dnsHostnames ← buildPrecreateDNSHostnames cluster;
    if (length dnsHostnames =? 0)%nat then
      glog Info LogNoRecords;;
      mret tt
    else
      glog Info LogPrecreating;;
      zone ← findZone cluster cloud;
      emit (CallZoneResourceRecordSets (zone_ID zone));;
      match zone_ResourceRecordSets zone with
      | None => fail (ErrGettingRecords (zone_Name zone))
      | Some rrs =>
        emit (CallRRSList (rrs_List rrs));;
        match rrs_List rrs with
        | Err err => fail (ErrListingRecords (zone_Name zone) err)
        | Ok records =>
          recordsMap ← for_range records (λ recordsMap record,
            let name := strings.TrimSuffix (rr_Name record) "." in
            let key := rr_Type record +:+ "::" +:+ name in
            mret (<[key := record]> recordsMap))
            (∅ : gmap string ResourceRecordSet);
          emit CallStartChangeset;;
          '(changeset, created) ← for_range dnsHostnames
            (λ '(changeset, created) dnsHostname,
              let dnsHostname := strings.TrimSuffix dnsHostname "." in
              let dnsRecord := recordsMap !! ("A::" +:+ dnsHostname) in
              let found := false in
              found ←
                match dnsRecord with
                | Some dnsRecord =>
                  let rrdatas := rr_Rrdatas dnsRecord in
                  if (0 <? length rrdatas)%nat then
                    glog (V 4) (LogFoundRecord dnsHostname rrdatas);;
                    mret true
                  else
                    glog (V 4) (LogFoundEmptyRecord dnsHostname);;
                    mret true
                | None => mret found
                end;
              if found : bool then
                mret (changeset, created)
              else
                glog (V 2) (LogPrecreatingRecord dnsHostname PlaceholderIP);;
                let r := rrs_New dnsHostname [PlaceholderIP] PlaceholderTTL
                           rrstype.A in
                emit (CallChangesetAdd r);;
                mret (changeset ++ [r], created ++ [dnsHostname]))
            (([] : list ResourceRecordSet), ([] : list string));
          if negb (length created =? 0)%nat then
            emit (CallChangesetApply changeset);;
            match rrs_Apply rrs changeset with
            | Some err => fail (ErrPrecreating err)
            | None =>
              glog (V 2) (LogPrecreated created);;
              mret tt
            end
          else
            mret tt
        end
      end.

(** * Specification vocabulary *)

(** A zone matches the target when its raw ID is the target as given, or
    when its name and the target agree once one trailing dot is stripped
    from each. *)
Definition zone_matches (target : string) (zone : Zone) : Prop :=
  zone_ID zone = target ∨
  strings.TrimSuffix (zone_Name zone) "." = strings.TrimSuffix target ".".

#[global] Instance zone_matches_dec target zone :
  Decision (zone_matches target zone).
Proof. unfold zone_matches. apply _. Defined.


(** The hostname of an etcd member, as the design words it: the prefix
    ["etcd-" + clusterName], which collapses to ["etcd"] for the cluster
    named ["main"], then ["-"], the member, [".internal."] and the name of
    the cluster object. *)
Definition etcdHostname (clusterName memberName objectName : string) : string :=
  (if decide (clusterName = "main") then "etcd" else "etcd-" +:+ clusterName)
  +:+ "-" +:+ memberName +:+ ".internal." +:+ objectName.

(** The desired hostnames, as the design words them: the master public
    name and the master internal name when configured, then one name per
    member of each etcd cluster. *)
Definition desiredHostnames (cluster : Cluster) : list string :=
  (if decide (MasterPublicName (cluster_Spec cluster) = "") then []
   else [MasterPublicName (cluster_Spec cluster)]) ++
  (if decide (MasterInternalName (cluster_Spec cluster) = "") then []
   else [MasterInternalName (cluster_Spec cluster)]) ++
  (etcdCluster ← EtcdClusters (cluster_Spec cluster);
   etcdClusterMember ← etcd_Members etcdCluster;
   [etcdHostname (etcd_Name etcdCluster) (member_Name etcdClusterMember)
                 (Name (cluster_ObjectMeta cluster))]).

(** The warnings [buildPrecreateDNSHostnames] logs. *)
Definition hostnameWarnings (cluster : Cluster) : list Event :=
  (if decide (MasterPublicName (cluster_Spec cluster) = "")
   then [Glog Warning LogNoMasterPublicName] else []) ++
  (if decide (MasterInternalName (cluster_Spec cluster) = "")
   then [Glog Warning LogNoMasterInternalName] else []).

(** ** Reading a trace *)

(** The calls of a trace: everything but the log lines. *)
Definition is_call (ev : Event) : bool :=
  match ev with Glog _ _ => false | _ => true end.

Definition calls (t : list Event) : list Event := filter is_call t.

(** The records queued with [changeset.Add], in order. *)
Definition queued (t : list Event) : list ResourceRecordSet :=
  omap (λ ev, match ev with CallChangesetAdd r => Some r | _ => None end) t.

(** The records handed to [changeset.Remove]. *)
Definition removed (t : list Event) : list ResourceRecordSet :=
  omap (λ ev, match ev with CallChangesetRemove r => Some r | _ => None end) t.

(** The batches submitted with [changeset.Apply], one per call. *)
Definition applied (t : list Event) : list (list ResourceRecordSet) :=
  omap (λ ev, match ev with CallChangesetApply b => Some b | _ => None end) t.

(** The record listings [rrs.List()] returned. *)
Definition listings (t : list Event) : list (list ResourceRecordSet) :=
  omap (λ ev, match ev with CallRRSList (Ok rs) => Some rs | _ => None end) t.

(** ** The diff of [precreateDNS] *)

(** The key under which [precreateDNS] files a listed record. *)
Definition recordKey (record : ResourceRecordSet) : string :=
  rr_Type record +:+ "::" +:+ strings.TrimSuffix (rr_Name record) ".".

(** The lookup [precreateDNS] builds from the listing: a later record
    replaces an earlier one with the same key. *)
Definition recordsMapOf (records : list ResourceRecordSet)
    : gmap string ResourceRecordSet :=
  foldl (λ recordsMap record, <[recordKey record := record]> recordsMap)
        ∅ records.

(** The desired hostnames with one trailing dot stripped, in order. *)
Definition normalizedHostnames (cluster : Cluster) : list string :=
  (λ dnsHostname, strings.TrimSuffix dnsHostname ".") <$> desiredHostnames cluster.

(** A hostname is absent when no record is filed under ["A::" + hostname]. *)
Definition absent (recordsMap : gmap string ResourceRecordSet)
    (dnsHostname : string) : Prop :=
  recordsMap !! ("A::" +:+ dnsHostname) = None.

#[global] Instance absent_dec recordsMap dnsHostname :
  Decision (absent recordsMap dnsHostname).
Proof. unfold absent. apply _. Defined.

(** The placeholder record queued for a hostname. *)
Definition placeholder (dnsHostname : string) : ResourceRecordSet :=
  {| rr_Name := dnsHostname; rr_Rrdatas := ["203.0.113.123"];
     rr_Ttl := 10; rr_Type := "A" |}.

(** What one round of the diff loop emits for a normalised hostname: a
    log line when a record is filed under its key, a log line and the
    [Add] of its placeholder otherwise. *)
Definition diffEvents (recordsMap : gmap string ResourceRecordSet)
    (dnsHostname : string) : list Event :=
  match recordsMap !! ("A::" +:+ dnsHostname) with
  | Some dnsRecord =>
    if (0 <? length (rr_Rrdatas dnsRecord))%nat
    then [Glog (V 4) (LogFoundRecord dnsHostname (rr_Rrdatas dnsRecord))]
    else [Glog (V 4) (LogFoundEmptyRecord dnsHostname)]
  | None =>
    [Glog (V 2) (LogPrecreatingRecord dnsHostname "203.0.113.123");
     CallChangesetAdd (placeholder dnsHostname)]
  end.

(** How many entries of a list of names are a given name. *)
Definition occurrences (name : string) (names : list string) : nat :=
  length (filter (λ n, n = name) names).

(** ** The environment *)

(** The process after [os.Setenv(key, value)]. *)
Definition Setenv (p : Process) (key value : string) : Process :=
  {| environ := <[key := value]> (environ p);
     DNSPreCreate := DNSPreCreate p;
     LookupNS := LookupNS p |}.

(** The process after [os.Unsetenv(key)]. *)
Definition Unsetenv (p : Process) (key : string) : Process :=
  {| environ := delete key (environ p);
     DNSPreCreate := DNSPreCreate p;
     LookupNS := LookupNS p |}.

(** What [validateDNS] emits after the NS lookup. *)
Definition nsCheckEvents (p : Process) (dnsName : string) : list Event :=
  match LookupNS p dnsName with
  | Err _ => []
  | Ok ns =>
    if (length ns =? 0)%nat then
      CallGetenv "DNS_IGNORE_NS_CHECK" ::
      (if String.eqb (Getenv p "DNS_IGNORE_NS_CHECK") "" then []
       else [Glog Warning LogIgnoringNSCheck])
    else [Glog (V 2) (LogFoundNS dnsName (Host <$> ns))]
  end.

(** ** Sample inputs *)

(** The cluster object ["foo"] with etcd clusters ["main"] (member ["a"])
    and ["events"] (member ["b"]). *)
Definition fooCluster (masterPublicName masterInternalName : string) : Cluster :=
  {| cluster_ObjectMeta := {| Name := "foo" |};
     cluster_Spec :=
       {| DNSZone := "foo.";
          MasterPublicName := masterPublicName;
          MasterInternalName := masterInternalName;
          EtcdClusters :=
            [ {| etcd_Name := "main";
                 etcd_Members := [ {| member_Name := "a" |} ] |};
              {| etcd_Name := "events";
                 etcd_Members := [ {| member_Name := "b" |} ] |} ] |} |}.

(** A cluster with no etcd clusters. *)
Definition bareCluster (dnsZone masterPublicName masterInternalName : string)
    : Cluster :=
  {| cluster_ObjectMeta := {| Name := "foo" |};
     cluster_Spec :=
       {| DNSZone := dnsZone;
          MasterPublicName := masterPublicName;
          MasterInternalName := masterInternalName;
          EtcdClusters := [] |} |}.

(** A record set provider that lists [records] and accepts every batch. *)
Definition recordsOf (records : list ResourceRecordSet) : ResourceRecordSets :=
  {| rrs_List := Ok records; rrs_Apply := λ _, None |}.

Definition zoneOf (id name : string) (records : list ResourceRecordSet) : Zone :=
  {| zone_ID := id; zone_Name := name;
     zone_ResourceRecordSets := Some (recordsOf records) |}.

Definition dnsOf (zones : list Zone) : DNSInterface :=
  {| dns_Zones := Some {| zones_List := Ok zones |} |}.

(** A cloud whose provider lists [zones]. *)
Definition cloudOf (zones : list Zone) : Cloud :=
  {| cloud_DNS := Ok (dnsOf zones) |}.

(** A process whose resolver answers every lookup with [ns]. *)
Definition processOf (env : gmap string string) (preCreate : bool)
    (ns : result goerror (list NS)) : Process :=
  {| environ := env; DNSPreCreate := preCreate; LookupNS := λ _, ns |}.

(** An [A] record without data, as an alias target is listed. *)
Definition aliasRecord (name : string) : ResourceRecordSet :=
  {| rr_Name := name; rr_Rrdatas := []; rr_Ttl := 300; rr_Type := "A" |}.

(** The zone ["foo."] with ID ["Z1"], holding [records]. *)
Definition fooCloud (records : list ResourceRecordSet) : Cloud :=
  cloudOf [zoneOf "Z1" "foo." records].

(** Pre-creation enabled, nothing in the environment, no NS records. *)
Definition plainProcess : Process := processOf ∅ true (Ok []).

(** ** Further readings of a trace *)

(** The names handed to [net.LookupNS], in order. *)
Definition lookups (t : list Event) : list string :=
  omap (λ ev, match ev with CallLookupNS dnsName => Some dnsName | _ => None end) t.

(** The environment variables read with [os.Getenv], in order. *)
Definition getenvs (t : list Event) : list string :=
  omap (λ ev, match ev with CallGetenv key => Some key | _ => None end) t.

(** Every call of [rrs.List()], with what it returned, in order. *)
Definition listCalls (t : list Event)
    : list (result goerror (list ResourceRecordSet)) :=
  omap (λ ev, match ev with CallRRSList res => Some res | _ => None end) t.

(** The calls that resolve a zone, look up NS records or read the
    environment: every call but those on a zone's record sets and on a
    changeset. *)
Definition resolves_or_looks_up (ev : Event) : Prop :=
  match ev with
  | CallCloudDNS | CallDNSZones | CallZonesList
  | CallLookupNS _ | CallGetenv _ => True
  | CallZoneResourceRecordSets _ | CallRRSList _ | CallStartChangeset
  | CallChangesetAdd _ | CallChangesetRemove _ | CallChangesetApply _
  | Glog _ _ => False
  end.
(** * Properties *)

(** ** The monad *)

Lemma M_eta {A} (m : M A) : m = (outcome m, trace m).
Proof. by destruct m. Qed.

Lemma bind_mret {A B} (a : A) (k : A → M B) : mret a ≫= k = k a.
Proof. unfold mret, M_ret. simpl. by destruct (k a). Qed.

Lemma for_range_pure {A S} (f : S → A → S) (xs : list A) (s : S) :
  for_range xs (λ s x, mret (f s x)) s = mret (foldl f s xs).
Proof.
  revert s. induction xs as [|x xs IH]; intros s; [done|].
  cbn [for_range foldl]. by rewrite bind_mret.
Qed.

(** ** Trailing dots *)

Lemma substring_all (s : string) : String.substring 0 (String.length s) s = s.
Proof. induction s as [|c s IH]; [done|]. simpl. by rewrite IH. Qed.

Lemma substring_prefix (s t : string) :
  String.substring 0 (String.length s) (s +:+ t) = s.
Proof.
  induction s as [|c s IH]; simpl.
  - by destruct t.
  - by rewrite IH.
Qed.

Lemma substring_suffix (s t : string) :
  String.substring (String.length s) (String.length t) (s +:+ t) = t.
Proof. induction s as [|c s IH]; simpl; [apply substring_all|done]. Qed.

Lemma length_app_string (s t : string) :
  String.length (s +:+ t) = (String.length s + String.length t)%nat.
Proof. induction s as [|c s IH]; simpl; [done|]. by rewrite IH. Qed.

(** A string that ends with the suffix loses exactly that suffix. *)
Lemma TrimSuffix_app (s suffix : string) :
  strings.TrimSuffix (s +:+ suffix) suffix = s.
Proof.
  unfold strings.TrimSuffix, strings.HasSuffix.
  rewrite length_app_string.
  replace (String.length s + String.length suffix - String.length suffix)%nat
    with (String.length s) by lia.
  rewrite substring_suffix, String.eqb_refl, substring_prefix.
  by rewrite (proj2 (Nat.leb_le _ _)) by lia.
Qed.

(** A string that does not end with the suffix is left as it is. *)
Lemma TrimSuffix_id (s suffix : string) :
  strings.HasSuffix s suffix = false → strings.TrimSuffix s suffix = s.
Proof. unfold strings.TrimSuffix. by intros ->. Qed.

(** ** Zone resolution *)

Lemma zone_matches_eqb target zone :
  String.eqb (zone_ID zone) target
  || String.eqb (strings.TrimSuffix (zone_Name zone) ".")
                (strings.TrimSuffix target ".")
  = bool_decide (zone_matches target zone).
Proof.
  unfold zone_matches. apply eq_true_iff_eq.
  rewrite orb_true_iff, !String.eqb_eq, bool_decide_eq_true. done.
Qed.

Lemma findZone_loop target (zones acc : list Zone) :
  for_range zones (λ matches zone,
    if String.eqb (zone_ID zone) target
       || String.eqb (strings.TrimSuffix (zone_Name zone) ".")
                     (strings.TrimSuffix target ".")
    then mret (matches ++ [zone])
    else mret matches) acc
  = (Ok (acc ++ filter (zone_matches target) zones), []).
Proof.
  revert acc. induction zones as [|z zones IH]; intros acc.
  - simpl. by rewrite app_nil_r.
  - cbn [for_range]. rewrite zone_matches_eqb, filter_cons.
    case_bool_decide as Hm.
    + rewrite decide_True by done. rewrite bind_mret, IH.
      by rewrite <- app_assoc.
    + rewrite decide_False by done. by rewrite bind_mret, IH.
Qed.

(** What [findZone] does once the provider has listed its zones. *)
Lemma findZone_listed cluster cloud dns zonesProvider zones :
  cloud_DNS cloud = Ok dns →
  dns_Zones dns = Some zonesProvider →
  zones_List zonesProvider = Ok zones →
  findZone cluster cloud =
  (match filter (zone_matches (DNSZone (cluster_Spec cluster))) zones with
   | [] => Err (ErrCannotFindZone (DNSZone (cluster_Spec cluster)))
   | [zone] => Ok zone
   | _ :: _ :: _ => Err (ErrMultipleZones (DNSZone (cluster_Spec cluster)))
   end,
   [CallCloudDNS; CallDNSZones; CallZonesList]).
Proof.
  intros Hdns Hzones Hlist. unfold findZone. cbv zeta.
  rewrite Hdns, Hzones, Hlist, findZone_loop. simpl.
  by destruct (filter _ zones) as [|z1 [|z2 ms]].
Qed.

(** [findZone] calls the provider at most three times, in this order. *)
Lemma findZone_trace cluster cloud :
  ∃ n, trace (findZone cluster cloud)
       = take n [CallCloudDNS; CallDNSZones; CallZonesList].
Proof.
  destruct (cloud_DNS cloud) as [dns|err] eqn:Hdns.
  - destruct (dns_Zones dns) as [zonesProvider|] eqn:Hzones.
    + destruct (zones_List zonesProvider) as [zones|err] eqn:Hlist.
      * exists 3%nat. by rewrite (findZone_listed _ _ _ _ _ Hdns Hzones Hlist).
      * exists 3%nat. unfold findZone. by rewrite Hdns, Hzones, Hlist.
    + exists 2%nat. unfold findZone. by rewrite Hdns, Hzones.
  - exists 1%nat. unfold findZone. by rewrite Hdns.
Qed.

(** C1. Zone resolution.  Once the provider has listed its zones, the zones
    that match the cluster's [DNSZone] are those whose raw ID is the target
    as given or whose name equals the target after one trailing dot is
    stripped from each; [findZone] returns the matching zone when exactly
    one zone of the listing matches, fails with a [ZoneNotFound] error when
    none does, and with an [AmbiguousZone] error when two or more do.
    Stripping removes exactly one trailing dot and leaves a string without
    one unchanged. *)
Theorem findZone_resolves_unique_match cluster cloud dns zonesProvider zones :
  cloud_DNS cloud = Ok dns →
  dns_Zones dns = Some zonesProvider →
  zones_List zonesProvider = Ok zones →
  let target := DNSZone (cluster_Spec cluster) in
  let matches := filter (zone_matches target) zones in
  (∀ zone, matches = [zone] → outcome (findZone cluster cloud) = Ok zone) ∧
  (matches = [] →
     outcome (findZone cluster cloud) = Err (ErrCannotFindZone target) ∧
     kind (ErrCannotFindZone target) = ZoneNotFound) ∧
  ((2 ≤ length matches)%nat →
     outcome (findZone cluster cloud) = Err (ErrMultipleZones target) ∧
     kind (ErrMultipleZones target) = AmbiguousZone) ∧
  (∀ s, strings.TrimSuffix (s +:+ ".") "." = s) ∧
  (∀ s, strings.HasSuffix s "." = false → strings.TrimSuffix s "." = s).
Proof.
  intros Hdns Hzones Hlist target matches.
  rewrite (findZone_listed _ _ _ _ _ Hdns Hzones Hlist).
  fold target. fold matches. unfold outcome. simpl.
  split_and!.
  - by intros zone ->.
  - by intros ->.
  - intros Hlen. by destruct matches as [|z1 [|z2 ms]]; simpl in Hlen; [lia..|].
  - intros s. apply TrimSuffix_app.
  - intros s. apply TrimSuffix_id.
Qed.

Lemma findZone_resolves_unique_match_witness :
  outcome (findZone (bareCluster "foo" "api.foo" "")
             (cloudOf [zoneOf "Z1" "foo." []; zoneOf "Z2" "bar." []]))
  = Ok (zoneOf "Z1" "foo." []).
Proof.
  destruct (findZone_resolves_unique_match (bareCluster "foo" "api.foo" "")
              (cloudOf [zoneOf "Z1" "foo." []; zoneOf "Z2" "bar." []])
              (dnsOf [zoneOf "Z1" "foo." []; zoneOf "Z2" "bar." []])
              {| zones_List := Ok [zoneOf "Z1" "foo." []; zoneOf "Z2" "bar." []] |}
              [zoneOf "Z1" "foo." []; zoneOf "Z2" "bar." []]
              eq_refl eq_refl eq_refl) as (Hone & _).
  apply Hone. vm_compute. reflexivity.
Defined.

(** ** Hostname derivation *)

(** A loop that only appends: the result is the start followed by what
    each element contributes, and nothing is emitted. *)
Lemma for_range_extend {A B} (body : list B → A → M (list B))
    (g : A → list B) (xs : list A) (acc : list B) :
  (∀ acc x, body acc x = (Ok (acc ++ g x), [])) →
  for_range xs body acc = (Ok (acc ++ (xs ≫= g)), []).
Proof.
  intros Hbody. revert acc. induction xs as [|x xs IH]; intros acc.
  - simpl. by rewrite app_nil_r.
  - cbn [for_range]. rewrite Hbody. simpl. rewrite IH.
    by rewrite <- app_assoc.
Qed.

Lemma for_range_append {A B} (f : A → B) (xs : list A) (acc : list B) :
  for_range xs (λ acc x, mret (acc ++ [f x])) acc = (Ok (acc ++ (f <$> xs)), []).
Proof.
  rewrite (for_range_extend _ (λ x, [f x])) by done.
  assert (Hmap : xs ≫= (λ x, [f x]) = f <$> xs).
  { induction xs as [|x xs IH]; [done|].
    by rewrite bind_cons, fmap_cons, IH. }
  by rewrite Hmap.
Qed.

(** [buildPrecreateDNSHostnames] never fails: it returns the desired
    hostnames of the design and logs a warning per master name not set. *)
Lemma buildPrecreateDNSHostnames_spec cluster :
  buildPrecreateDNSHostnames cluster
  = (Ok (desiredHostnames cluster), hostnameWarnings cluster).
Proof.
  unfold buildPrecreateDNSHostnames, desiredHostnames, hostnameWarnings.
  cbv zeta.
  assert (Hetcd : ∀ acc,
    for_range (EtcdClusters (cluster_Spec cluster)) (λ dnsHostnames etcdCluster,
      for_range (etcd_Members etcdCluster) (λ dnsHostnames etcdClusterMember,
        mret (dnsHostnames ++
          [(if String.eqb (etcd_Name etcdCluster) "main" then "etcd"
            else "etcd-" +:+ etcd_Name etcdCluster)
           +:+ "-" +:+ member_Name etcdClusterMember
           +:+ ".internal." +:+ Name (cluster_ObjectMeta cluster)]))
        dnsHostnames) acc
    = (Ok (acc ++
        (etcdCluster ← EtcdClusters (cluster_Spec cluster);
         etcdClusterMember ← etcd_Members etcdCluster;
         [etcdHostname (etcd_Name etcdCluster) (member_Name etcdClusterMember)
                       (Name (cluster_ObjectMeta cluster))])), [])).
  { intros acc. apply for_range_extend. intros acc' ec.
    rewrite (for_range_extend _ (λ m,
      [etcdHostname (etcd_Name ec) (member_Name m)
                    (Name (cluster_ObjectMeta cluster))])); [done|].
    intros acc'' m. unfold etcdHostname, mret, M_ret. do 4 f_equal.
    destruct (String.eqb_spec (etcd_Name ec) "main") as [->|Hne].
    - done.
    - by rewrite decide_False. }
  destruct (String.eqb_spec (MasterPublicName (cluster_Spec cluster)) "")
    as [Hpub|Hpub];
  destruct (String.eqb_spec (MasterInternalName (cluster_Spec cluster)) "")
    as [Hint|Hint];
  repeat case_decide; try congruence;
  simpl; rewrite Hetcd; reflexivity.
Qed.

(** C5. Etcd hostname derivation.  [buildPrecreateDNSHostnames] returns the
    master names that are set followed by one hostname per etcd member, so
    each member of each etcd cluster contributes
    ["etcd-" + clusterName + "-" + memberName + ".internal." + objectName],
    with the prefix collapsed to ["etcd"] for the cluster named ["main"]:
    member ["a"] of ["main"] in object ["foo"] gives ["etcd-a.internal.foo"]
    and member ["b"] of ["events"] gives ["etcd-events-b.internal.foo"]. *)
Theorem etcd_hostname_derivation cluster :
  outcome (buildPrecreateDNSHostnames cluster) = Ok (desiredHostnames cluster) ∧
  (∀ etcdCluster etcdClusterMember,
     etcdCluster ∈ EtcdClusters (cluster_Spec cluster) →
     etcdClusterMember ∈ etcd_Members etcdCluster →
     ∃ dnsHostnames,
       outcome (buildPrecreateDNSHostnames cluster) = Ok dnsHostnames ∧
       (if decide (etcd_Name etcdCluster = "main")
        then "etcd-" +:+ member_Name etcdClusterMember
             +:+ ".internal." +:+ Name (cluster_ObjectMeta cluster)
        else "etcd-" +:+ etcd_Name etcdCluster +:+ "-"
             +:+ member_Name etcdClusterMember
             +:+ ".internal." +:+ Name (cluster_ObjectMeta cluster))
       ∈ dnsHostnames) ∧
  outcome (buildPrecreateDNSHostnames (fooCluster "" ""))
  = Ok ["etcd-a.internal.foo"; "etcd-events-b.internal.foo"].
Proof.
  rewrite buildPrecreateDNSHostnames_spec. unfold outcome. simpl.
  split_and!; [done| |done].
  intros ec m Hec Hm. eexists. split; [done|].
  unfold desiredHostnames. rewrite !elem_of_app. right. right.
  apply list_elem_of_bind. exists ec. split; [|done].
  apply list_elem_of_bind. exists m. split; [|done].
  apply list_elem_of_singleton. unfold etcdHostname.
  by case_decide.
Qed.

Lemma etcd_hostname_derivation_witness :
  ∃ dnsHostnames,
    outcome (buildPrecreateDNSHostnames (fooCluster "api.foo" "")) = Ok dnsHostnames ∧
    "etcd-events-b.internal.foo" ∈ dnsHostnames.
Proof.
  apply (proj1 (proj2 (etcd_hostname_derivation (fooCluster "api.foo" "")))
           {| etcd_Name := "events"; etcd_Members := [ {| member_Name := "b" |} ] |}
           {| member_Name := "b" |}).
  - right. left.
  - left.
Defined.

(** ** The diff of [precreateDNS] *)

Lemma bind_run {A B} (m : M A) (k : A → M B) a t r t' :
  m = (Ok a, t) → k a = (r, t') → m ≫= k = (r, t ++ t').
Proof. intros -> Hk. simpl. by rewrite Hk. Qed.

Lemma bind_fail {A B} (m : M A) (k : A → M B) e t :
  m = (Err e, t) → m ≫= k = (Err e, t).
Proof. by intros ->. Qed.

Lemma recordsMap_loop (records : list ResourceRecordSet) :
  for_range records (λ recordsMap record,
    mret (<[rr_Type record +:+ "::" +:+ strings.TrimSuffix (rr_Name record) "."
            := record]> recordsMap))
    (∅ : gmap string ResourceRecordSet)
  = (Ok (recordsMapOf records), []).
Proof. by rewrite for_range_pure. Qed.

(** The diff loop: started on [(changeset, created)], it appends the
    placeholder and the name of every absent hostname and emits
    [diffEvents] for each hostname. *)
Lemma diff_loop (recordsMap : gmap string ResourceRecordSet)
    (dnsHostnames : list string) changeset created :
  for_range dnsHostnames
    (λ '(changeset, created) dnsHostname,
      found ←
        match recordsMap !! ("A::" +:+ strings.TrimSuffix dnsHostname ".") with
        | Some dnsRecord =>
          if (0 <? length (rr_Rrdatas dnsRecord))%nat then
            glog (V 4) (LogFoundRecord (strings.TrimSuffix dnsHostname ".")
                          (rr_Rrdatas dnsRecord));;
            mret true
          else
            glog (V 4) (LogFoundEmptyRecord (strings.TrimSuffix dnsHostname "."));;
            mret true
        | None => mret false
        end;
      if found : bool then
        mret (changeset, created)
      else
        glog (V 2) (LogPrecreatingRecord (strings.TrimSuffix dnsHostname ".")
                      PlaceholderIP);;
        emit (CallChangesetAdd
                (rrs_New (strings.TrimSuffix dnsHostname ".") [PlaceholderIP]
                         PlaceholderTTL rrstype.A));;
        mret (changeset ++
                [rrs_New (strings.TrimSuffix dnsHostname ".") [PlaceholderIP]
                         PlaceholderTTL rrstype.A],
              created ++ [strings.TrimSuffix dnsHostname "."]))
    (changeset, created)
  = (Ok (changeset ++ (placeholder <$>
           filter (absent recordsMap)
             ((λ h, strings.TrimSuffix h ".") <$> dnsHostnames)),
         created ++
           filter (absent recordsMap)
             ((λ h, strings.TrimSuffix h ".") <$> dnsHostnames)),
     ((λ h, strings.TrimSuffix h ".") <$> dnsHostnames) ≫= diffEvents recordsMap).
Proof.
  revert changeset created.
  induction dnsHostnames as [|h hs IH]; intros changeset created.
  - simpl. by rewrite !app_nil_r.
  - cbn [for_range]. rewrite fmap_cons, bind_cons, filter_cons.
    unfold diffEvents at 1.
    destruct (decide (absent recordsMap (strings.TrimSuffix h "."))) as [Ha|Ha];
      unfold absent in Ha.
    + rewrite Ha. simpl. rewrite IH.
      by rewrite <- !app_assoc.
    + destruct (recordsMap !! ("A::" +:+ strings.TrimSuffix h ".")) as [r|];
        [|done].
      destruct (0 <? length (rr_Rrdatas r))%nat; simpl; by rewrite IH.
Qed.

Lemma calls_app t1 t2 : calls (t1 ++ t2) = calls t1 ++ calls t2.
Proof. apply filter_app. Qed.

Lemma calls_hostnameWarnings cluster : calls (hostnameWarnings cluster) = [].
Proof. unfold hostnameWarnings. by repeat case_decide. Qed.

(** Of what the diff loop emits, the calls are the [Add]s of the
    placeholders of the absent hostnames. *)
Lemma calls_diffEvents recordsMap (dnsHostnames : list string) :
  calls (dnsHostnames ≫= diffEvents recordsMap)
  = CallChangesetAdd <$> (placeholder <$> filter (absent recordsMap) dnsHostnames).
Proof.
  induction dnsHostnames as [|h hs IH]; [done|].
  rewrite bind_cons, calls_app, IH, filter_cons.
  unfold diffEvents.
  destruct (decide (absent recordsMap h)) as [Ha|Ha]; unfold absent in Ha.
  - by rewrite Ha.
  - destruct (recordsMap !! ("A::" +:+ h)) as [r|]; [|done].
    by destruct (0 <? length (rr_Rrdatas r))%nat.
Qed.

(** A run of [precreateDNS] that gets to list the zone's records: after
    resolving the zone it lists the records, starts a changeset, queues the
    placeholder of each absent hostname and applies the changeset when it
    queued something. *)
Lemma precreateDNS_diff p cluster cloud zone rrs records :
  DNSPreCreate p = true →
  desiredHostnames cluster ≠ [] →
  outcome (findZone cluster cloud) = Ok zone →
  zone_ResourceRecordSets zone = Some rrs →
  rrs_List rrs = Ok records →
  let adds := placeholder <$>
    filter (absent (recordsMapOf records)) (normalizedHostnames cluster) in
  calls (trace (precreateDNS p cluster cloud))
  = calls (trace (findZone cluster cloud)) ++
    [CallZoneResourceRecordSets (zone_ID zone); CallRRSList (Ok records);
     CallStartChangeset] ++
    (CallChangesetAdd <$> adds) ++
    (if decide (adds = []) then [] else [CallChangesetApply adds]) ∧
  outcome (precreateDNS p cluster cloud)
  = (if decide (adds = []) then Ok tt
     else match rrs_Apply rrs adds with
          | Some err => Err (ErrPrecreating err)
          | None => Ok tt
          end).
Proof.
  intros Hflag Hne Hzone Hrrs Hlist adds.
  assert (Hlen : (length (desiredHostnames cluster) =? 0)%nat = false)
    by (by destruct (desiredHostnames cluster)).
  assert (Hrun : ∃ r t,
    precreateDNS p cluster cloud = (r, t) ∧
    r = (if decide (adds = []) then Ok tt
         else match rrs_Apply rrs adds with
              | Some err => Err (ErrPrecreating err)
              | None => Ok tt
              end) ∧
    calls t = calls (trace (findZone cluster cloud)) ++
      [CallZoneResourceRecordSets (zone_ID zone); CallRRSList (Ok records);
       CallStartChangeset] ++
      (CallChangesetAdd <$> adds) ++
      (if decide (adds = []) then [] else [CallChangesetApply adds])).
  { do 2 eexists. split.
    - unfold precreateDNS. rewrite Hflag. cbn [negb]. cbv zeta.
      eapply bind_run; [apply buildPrecreateDNSHostnames_spec|].
      rewrite Hlen.
      eapply bind_run; [reflexivity|].
      eapply bind_run;
        [rewrite (M_eta (findZone cluster cloud)), Hzone; reflexivity|].
      eapply bind_run; [reflexivity|].
      rewrite Hrrs, Hlist.
      eapply bind_run; [reflexivity|].
      eapply bind_run; [apply recordsMap_loop|].
      eapply bind_run; [reflexivity|].
      eapply bind_run; [apply diff_loop|].
      rewrite !app_nil_l. cbv beta iota. fold (normalizedHostnames cluster).
      fold adds. apply M_eta.
    - rewrite !calls_app, calls_hostnameWarnings, calls_diffEvents.
      fold (normalizedHostnames cluster). subst adds.
      destruct (filter (absent (recordsMapOf records))
                  (normalizedHostnames cluster)) as [|h hs]; [done|].
      cbn [length Nat.eqb negb].
      assert (Hadds : placeholder <$> h :: hs ≠ []) by done.
      revert Hadds. generalize (placeholder <$> h :: hs). intros adds Hadds.
      rewrite !decide_False by done.
      by destruct (rrs_Apply rrs adds) as [err|]. }
  destruct Hrun as (r & t & -> & -> & Hcalls). by split.
Qed.

(** ** Reading the trace of a run *)

(** Log lines are invisible to a reading that skips them. *)
Lemma omap_calls {B} (f : Event → option B) (t : list Event) :
  (∀ sev line, f (Glog sev line) = None) → omap f (calls t) = omap f t.
Proof.
  intros Hf. induction t as [|ev t IH]; [done|].
  unfold calls, omap in *. rewrite filter_cons.
  destruct ev; simpl; rewrite ?IH, ?Hf; done.
Qed.

Lemma queued_calls t : queued (calls t) = queued t.
Proof. by apply omap_calls. Qed.

Lemma removed_calls t : removed (calls t) = removed t.
Proof. by apply omap_calls. Qed.

Lemma applied_calls t : applied (calls t) = applied t.
Proof. by apply omap_calls. Qed.

Lemma listings_calls t : listings (calls t) = listings t.
Proof. by apply omap_calls. Qed.

Lemma queued_adds (adds : list ResourceRecordSet) :
  queued (CallChangesetAdd <$> adds) = adds.
Proof. induction adds as [|r adds IH]; [done|]. simpl. f_equal. exact IH. Qed.

Lemma removed_adds (adds : list ResourceRecordSet) :
  removed (CallChangesetAdd <$> adds) = [].
Proof. by induction adds. Qed.

Lemma applied_adds (adds : list ResourceRecordSet) :
  applied (CallChangesetAdd <$> adds) = [].
Proof. by induction adds. Qed.

Lemma listings_adds (adds : list ResourceRecordSet) :
  listings (CallChangesetAdd <$> adds) = [].
Proof. by induction adds. Qed.

(** [findZone] lists no records and touches no changeset. *)
Lemma findZone_reads cluster cloud :
  let t := trace (findZone cluster cloud) in
  listings t = [] ∧ queued t = [] ∧ applied t = [] ∧ removed t = [].
Proof.
  destruct (findZone_trace cluster cloud) as [n ->].
  by destruct n as [|[|[|[|n]]]].
Qed.

(** What a run of [precreateDNS] that lists the records reads and writes. *)
Lemma precreateDNS_diff_reads p cluster cloud zone rrs records :
  DNSPreCreate p = true →
  desiredHostnames cluster ≠ [] →
  outcome (findZone cluster cloud) = Ok zone →
  zone_ResourceRecordSets zone = Some rrs →
  rrs_List rrs = Ok records →
  let t := trace (precreateDNS p cluster cloud) in
  let adds := placeholder <$>
    filter (absent (recordsMapOf records)) (normalizedHostnames cluster) in
  listings t = [records] ∧ queued t = adds ∧
  applied t = (if decide (adds = []) then [] else [adds]) ∧ removed t = [].
Proof.
  intros Hflag Hne Hzone Hrrs Hlist t adds.
  destruct (precreateDNS_diff _ _ _ _ _ _ Hflag Hne Hzone Hrrs Hlist)
    as [Hcalls _].
  fold t adds in Hcalls.
  destruct (findZone_reads cluster cloud) as (Hl & Hq & Ha & Hr).
  rewrite <- (listings_calls t), <- (queued_calls t), <- (applied_calls t),
    <- (removed_calls t), Hcalls.
  unfold listings, queued, applied, removed.
  rewrite !omap_app.
  fold (listings (calls (trace (findZone cluster cloud)))).
  fold (queued (calls (trace (findZone cluster cloud)))).
  fold (applied (calls (trace (findZone cluster cloud)))).
  fold (removed (calls (trace (findZone cluster cloud)))).
  fold (listings (CallChangesetAdd <$> adds)).
  fold (queued (CallChangesetAdd <$> adds)).
  fold (applied (CallChangesetAdd <$> adds)).
  fold (removed (CallChangesetAdd <$> adds)).
  rewrite listings_calls, queued_calls, applied_calls, removed_calls.
  rewrite Hl, Hq, Ha, Hr.
  rewrite listings_adds, queued_adds, applied_adds, removed_adds.
  by destruct (decide (adds = [])); simpl; rewrite ?app_nil_r.
Qed.

(** A run of [precreateDNS] that does not get to list the records queues
    nothing and applies nothing. *)
Lemma precreateDNS_early_reads p cluster cloud :
  DNSPreCreate p = false ∨
  desiredHostnames cluster = [] ∨
  (∃ e, outcome (findZone cluster cloud) = Err e) ∨
  (∃ zone, outcome (findZone cluster cloud) = Ok zone ∧
     (zone_ResourceRecordSets zone = None ∨
      ∃ rrs err, zone_ResourceRecordSets zone = Some rrs ∧
                 rrs_List rrs = Err err)) →
  let t := trace (precreateDNS p cluster cloud) in
  listings t = [] ∧ queued t = [] ∧ applied t = [] ∧ removed t = [].
Proof.
  intros Hcase t.
  destruct (findZone_reads cluster cloud) as (Hl & Hq & Ha & Hr).
  assert (Hrun : ∃ r t0,
    precreateDNS p cluster cloud = (r, t0) ∧
    listings t0 = [] ∧ queued t0 = [] ∧ applied t0 = [] ∧ removed t0 = []).
  { unfold precreateDNS.
    destruct (DNSPreCreate p) eqn:Hflag; cbn [negb]; [|by do 2 eexists].
    destruct (decide (desiredHostnames cluster = [])) as [Hnil|Hne].
    { do 2 eexists. split.
      - eapply bind_run; [apply buildPrecreateDNSHostnames_spec|].
        rewrite Hnil. reflexivity.
      - unfold hostnameWarnings. by repeat case_decide. }
    assert (Hlen : (length (desiredHostnames cluster) =? 0)%nat = false)
      by (by destruct (desiredHostnames cluster)).
    assert (Hwarn : ∀ {B} (f : Event → option B),
      (∀ sev line, f (Glog sev line) = None) →
      omap f (hostnameWarnings cluster) = []).
    { intros B f Hf. unfold hostnameWarnings.
      repeat case_decide; simpl; rewrite ?Hf; done. }
    destruct Hcase as [Hcase|[Hcase|[[e He]|(zone & Hzone & Hcase)]]];
      [done|done|..].
    - do 2 eexists. split.
      + eapply bind_run; [apply buildPrecreateDNSHostnames_spec|].
        rewrite Hlen.
        eapply bind_run; [reflexivity|].
        eapply bind_fail.
        rewrite (M_eta (findZone cluster cloud)), He. reflexivity.
      + unfold listings, queued, applied, removed.
        rewrite !omap_app, !Hwarn by done.
        fold (listings (trace (findZone cluster cloud))).
        fold (queued (trace (findZone cluster cloud))).
        fold (applied (trace (findZone cluster cloud))).
        fold (removed (trace (findZone cluster cloud))).
        by rewrite Hl, Hq, Ha, Hr.
    - do 2 eexists. split.
      + eapply bind_run; [apply buildPrecreateDNSHostnames_spec|].
        rewrite Hlen.
        eapply bind_run; [reflexivity|].
        eapply bind_run;
          [rewrite (M_eta (findZone cluster cloud)), Hzone; reflexivity|].
        apply M_eta.
      + unfold listings, queued, applied, removed.
        rewrite !omap_app, !Hwarn by done.
        fold (listings (trace (findZone cluster cloud))).
        fold (queued (trace (findZone cluster cloud))).
        fold (applied (trace (findZone cluster cloud))).
        fold (removed (trace (findZone cluster cloud))).
        rewrite Hl, Hq, Ha, Hr.
        destruct Hcase as [->|(rrs & err & -> & ->)]; done. }
  destruct Hrun as (r & t0 & Hrun & Hobs). subst t. by rewrite Hrun.
Qed.

(** Every run of [precreateDNS] is of one of two kinds: it stops before
    the record listing and writes nothing, or it lists the records once and
    queues the placeholders of the absent hostnames, applying them in one
    batch when there are any.  No run removes a record. *)
Lemma precreateDNS_reads p cluster cloud :
  let t := trace (precreateDNS p cluster cloud) in
  removed t = [] ∧
  ((listings t = [] ∧ queued t = [] ∧ applied t = []) ∨
   (∃ records,
      listings t = [records] ∧
      queued t = placeholder <$>
        filter (absent (recordsMapOf records)) (normalizedHostnames cluster) ∧
      applied t = (if decide (queued t = []) then [] else [queued t]))).
Proof.
  intros t. subst t.
  destruct (DNSPreCreate p) eqn:Hflag;
    [|by destruct (precreateDNS_early_reads p cluster cloud) as (?&?&?&?);
        auto].
  destruct (decide (desiredHostnames cluster = [])) as [Hnil|Hne];
    [by destruct (precreateDNS_early_reads p cluster cloud) as (?&?&?&?);
       auto|].
  destruct (outcome (findZone cluster cloud)) as [zone|e] eqn:Hzone;
    [|by destruct (precreateDNS_early_reads p cluster cloud) as (?&?&?&?);
        eauto 6].
  destruct (zone_ResourceRecordSets zone) as [rrs|] eqn:Hrrs;
    [|by destruct (precreateDNS_early_reads p cluster cloud) as (?&?&?&?);
        eauto 8].
  destruct (rrs_List rrs) as [records|err] eqn:Hlist;
    [|by destruct (precreateDNS_early_reads p cluster cloud) as (?&?&?&?);
        eauto 10].
  destruct (precreateDNS_diff_reads _ _ _ _ _ _ Hflag Hne Hzone Hrrs Hlist)
    as (Hl & Hq & Ha & Hr).
  split; [done|]. right. exists records. by rewrite Hq.
Qed.

(** ** The lookup built from the listing *)

Lemma recordsMapOf_lookup (records : list ResourceRecordSet) (key : string) :
  is_Some (recordsMapOf records !! key)
  ↔ ∃ record, record ∈ records ∧ recordKey record = key.
Proof.
  unfold recordsMapOf.
  assert (Hgen : ∀ (m : gmap string ResourceRecordSet),
    is_Some (foldl (λ recordsMap record,
                      <[recordKey record := record]> recordsMap) m records !! key)
    ↔ is_Some (m !! key) ∨ ∃ record, record ∈ records ∧ recordKey record = key).
  { induction records as [|r records IH]; intros m; simpl.
    - split; [auto|]. intros [?|(r & Hr & _)]; [done|]. by apply elem_of_nil in Hr.
    - rewrite IH, lookup_insert_is_Some. split.
      + intros [[Hk|[_ Hm]]|(r' & Hr' & Hk)].
        * right. exists r. split; [left|done].
        * by left.
        * right. exists r'. split; [by right|done].
      + intros [Hm|(r' & Hr' & Hk)].
        * left. destruct (decide (recordKey r = key)); auto.
        * apply elem_of_cons in Hr' as [->|Hr']; [auto|]. right. eauto. }
  rewrite Hgen, lookup_empty. split; [|auto].
  intros [Hm|?]; [|done]. by destruct Hm.
Qed.

(** A placeholder whose name does not end in a dot is filed under
    ["A::"] followed by its name. *)
Lemma recordKey_placeholder (dnsHostname : string) :
  strings.HasSuffix dnsHostname "." = false →
  recordKey (placeholder dnsHostname) = "A::" +:+ dnsHostname.
Proof.
  intros Hdot. unfold recordKey. simpl. by rewrite TrimSuffix_id.
Qed.

(** ** Pre-creation *)

Lemma names_placeholders (dnsHostnames : list string) :
  rr_Name <$> (placeholder <$> dnsHostnames) = dnsHostnames.
Proof.
  induction dnsHostnames as [|h hs IH]; [done|].
  rewrite !fmap_cons, IH. done.
Qed.

(** C3. Take a run with pre-creation enabled and at least one desired
    hostname, whose zone resolves and whose records the provider lists.
    For each entry of the desired hostname list whose normalised name has
    no record under ["A::" + name], the run queues exactly one new record,
    in order: type [A], that name, data [["203.0.113.123"]] and TTL 10;
    it queues nothing else.  [Apply] is called once, with the whole batch
    and as the last call, when at least one record was queued, and is not
    called at all when none was. *)
Theorem precreate_queues_placeholders
    p cluster cloud zone rrs records dnsHostnames :
  DNSPreCreate p = true →
  outcome (buildPrecreateDNSHostnames cluster) = Ok dnsHostnames →
  dnsHostnames ≠ [] →
  outcome (findZone cluster cloud) = Ok zone →
  zone_ResourceRecordSets zone = Some rrs →
  rrs_List rrs = Ok records →
  let t := trace (precreateDNS p cluster cloud) in
  let absentNames :=
    filter (λ dnsHostname,
              recordsMapOf records !! ("A::" +:+ dnsHostname) = None)
           ((λ dnsHostname, strings.TrimSuffix dnsHostname ".")
              <$> dnsHostnames) in
  let batch :=
    (λ dnsHostname,
       {| rr_Name := dnsHostname; rr_Rrdatas := ["203.0.113.123"];
          rr_Ttl := 10; rr_Type := "A" |}) <$> absentNames in
  queued t = batch ∧
  (absentNames ≠ [] → applied t = [batch]) ∧
  (absentNames = [] → applied t = []) ∧
  calls t
  = calls (trace (findZone cluster cloud)) ++
    [CallZoneResourceRecordSets (zone_ID zone); CallRRSList (Ok records);
     CallStartChangeset] ++
    (CallChangesetAdd <$> batch) ++
    (if decide (absentNames = []) then [] else [CallChangesetApply batch]).
Proof.
  intros Hflag Hbuild Hne Hzone Hrrs Hlist t absentNames batch.
  rewrite buildPrecreateDNSHostnames_spec in Hbuild. injection Hbuild as <-.
  destruct (precreateDNS_diff_reads _ _ _ _ _ _ Hflag Hne Hzone Hrrs Hlist)
    as (_ & Hq & Ha & _).
  destruct (precreateDNS_diff _ _ _ _ _ _ Hflag Hne Hzone Hrrs Hlist)
    as [Hcalls _].
  fold t in Hq, Ha, Hcalls.
  change (placeholder <$>
            filter (absent (recordsMapOf records)) (normalizedHostnames cluster))
    with batch in Hq, Ha, Hcalls.
  assert (Hnil : batch = [] ↔ absentNames = []).
  { unfold batch. by destruct absentNames. }
  split_and!.
  - exact Hq.
  - intros Hsome. rewrite Ha. rewrite decide_False; [done|]. by rewrite Hnil.
  - intros Hnone. rewrite Ha. rewrite decide_True; [done|]. by rewrite Hnil.
  - rewrite Hcalls. do 3 f_equal.
    destruct (decide (batch = [])) as [Hb|Hb],
             (decide (absentNames = [])) as [Hn|Hn]; try done.
    + by apply Hnil in Hb.
    + by apply Hnil in Hn.
Qed.


Lemma precreate_queues_placeholders_witness :
  let t := trace (precreateDNS plainProcess
                    (bareCluster "foo" "api.foo" "api.internal.foo.")
                    (fooCloud [aliasRecord "api.foo."])) in
  queued t = [placeholder "api.internal.foo"] ∧
  applied t = [[placeholder "api.internal.foo"]].
Proof.
  intros t.
  destruct (precreate_queues_placeholders plainProcess
              (bareCluster "foo" "api.foo" "api.internal.foo.")
              (fooCloud [aliasRecord "api.foo."])
              (zoneOf "Z1" "foo." [aliasRecord "api.foo."])
              (recordsOf [aliasRecord "api.foo."])
              [aliasRecord "api.foo."]
              ["api.foo"; "api.internal.foo."])
    as (Hqueue & Happly & _).
  - reflexivity.
  - reflexivity.
  - discriminate.
  - reflexivity.
  - reflexivity.
  - reflexivity.
  - fold t in Hqueue, Happly. split.
    + rewrite Hqueue. vm_compute. reflexivity.
    + rewrite Happly; [vm_compute; reflexivity|].
      vm_compute. discriminate.
Defined.


Lemma occurrences_filter (P : string → Prop) `{∀ n, Decision (P n)}
    (name : string) (names : list string) :
  occurrences name (filter P names)
  = if decide (P name) then occurrences name names else 0%nat.
Proof.
  unfold occurrences. induction names as [|n names IH].
  - by case_decide.
  - rewrite (filter_cons P). destruct (decide (P n)) as [Hn|Hn].
    + rewrite !(filter_cons (λ n0, n0 = name)).
      destruct (decide (n = name)) as [->|Hne].
      * rewrite decide_True in IH |- * by done. simpl. by rewrite IH.
      * exact IH.
    + rewrite IH, (filter_cons (λ n0, n0 = name)).
      destruct (decide (n = name)) as [->|Hne].
      * by destruct (decide (P name)).
      * done.
Qed.

(** The claim of C9 fails: a hostname that is desired twice and has no
    record is queued twice. *)
Lemma precreate_duplicate_hostnames_counterexample :
  ¬ (∀ p cluster cloud dnsHostname,
       (occurrences dnsHostname
          (rr_Name <$> queued (trace (precreateDNS p cluster cloud))) ≤ 1)%nat).
Proof.
  intros Hclaim.
  specialize (Hclaim plainProcess (bareCluster "foo" "api.foo" "api.foo")
                (fooCloud []) "api.foo").
  vm_compute in Hclaim. lia.
Qed.

(** The run of the counterexample, evaluated: both master names are
    ["api.foo"], the zone is empty, and the batch holds the record twice. *)
Example precreate_same_master_names :
  let t := trace (precreateDNS plainProcess
                    (bareCluster "foo" "api.foo" "api.foo") (fooCloud [])) in
  queued t = [placeholder "api.foo"; placeholder "api.foo"] ∧
  applied t = [[placeholder "api.foo"; placeholder "api.foo"]].
Proof. by vm_compute. Qed.

(** C9, amended.  The diff does not remove repetitions: a hostname is
    queued at most as often as it occurs in the normalised desired list,
    and, in a run that lists the zone's records, exactly as often when no
    record is filed under ["A::" + name] and never when one is.  So at most
    one add per hostname is queued when the hostname occurs at most once. *)
Theorem precreate_queues_each_occurrence p cluster cloud dnsHostname :
  let t := trace (precreateDNS p cluster cloud) in
  let queuedNames := rr_Name <$> queued t in
  (occurrences dnsHostname queuedNames
   ≤ occurrences dnsHostname (normalizedHostnames cluster))%nat ∧
  (∀ records, listings t = [records] →
     occurrences dnsHostname queuedNames
     = if decide (recordsMapOf records !! ("A::" +:+ dnsHostname) = None)
       then occurrences dnsHostname (normalizedHostnames cluster)
       else 0%nat) ∧
  ((occurrences dnsHostname (normalizedHostnames cluster) ≤ 1)%nat →
   (occurrences dnsHostname queuedNames ≤ 1)%nat).
Proof.
  intros t queuedNames.
  assert (Hle : (occurrences dnsHostname queuedNames
                 ≤ occurrences dnsHostname (normalizedHostnames cluster))%nat
          ∧ ∀ records, listings t = [records] →
              occurrences dnsHostname queuedNames
              = if decide (recordsMapOf records !! ("A::" +:+ dnsHostname) = None)
                then occurrences dnsHostname (normalizedHostnames cluster)
                else 0%nat).
  { subst queuedNames.
    destruct (precreateDNS_reads p cluster cloud)
      as [_ [(Hl & Hq & Ha)|(records & Hl & Hq & Ha)]]; fold t in Hl, Hq, Ha.
    - rewrite Hq. split; [unfold occurrences; simpl; lia|].
      intros records Hrecords. congruence.
    - rewrite Hq, names_placeholders.
      rewrite (occurrences_filter (absent (recordsMapOf records))).
      split.
      + destruct (decide (absent (recordsMapOf records) dnsHostname)); lia.
      + intros records' Hrecords. rewrite Hl in Hrecords.
        injection Hrecords as <-. done. }
  destruct Hle as [Hle Heq]. split_and!; [done..|lia].
Qed.

Lemma precreate_queues_each_occurrence_witness :
  occurrences "api.foo"
    (rr_Name <$> queued (trace (precreateDNS plainProcess
                                  (bareCluster "foo" "api.foo" "api.foo.")
                                  (fooCloud [])))) = 2%nat.
Proof.
  destruct (precreate_queues_each_occurrence plainProcess
              (bareCluster "foo" "api.foo" "api.foo.") (fooCloud []) "api.foo")
    as (_ & Hexact & _).
  rewrite (Hexact []) by reflexivity.
  vm_compute. reflexivity.
Defined.

Lemma filter_none {A} (P : A → Prop) `{∀ x, Decision (P x)} (l : list A) :
  (∀ x, x ∈ l → ¬ P x) → filter P l = [].
Proof.
  induction l as [|x l IH]; intros Hl; [done|].
  rewrite filter_cons, decide_False by (apply Hl; left).
  apply IH. intros y Hy. apply Hl. by right.
Qed.

(** The claim of C2 fails for a hostname that ends in two dots: the first
    run queues the name with one dot left, the listing files that record
    under the name without a dot, and the second run queues it again. *)
Lemma precreate_idempotence_counterexample :
  ¬ (∀ p1 p2 cluster cloud1 cloud2 records1,
       let t1 := trace (precreateDNS p1 cluster cloud1) in
       let t2 := trace (precreateDNS p2 cluster cloud2) in
       listings t1 = [records1] →
       (∀ records2, listings t2 = [records2] →
          ∀ r, r ∈ records1 ++ queued t1 → r ∈ records2) →
       queued t2 = [] ∧ applied t2 = []).
Proof.
  intros Hclaim.
  destruct (Hclaim plainProcess plainProcess (bareCluster "foo" "api.foo.." "")
              (fooCloud []) (fooCloud [placeholder "api.foo."]) [])
    as [Hqueued _].
  - reflexivity.
  - intros records2 Hrecords2 r Hr.
    vm_compute in Hrecords2. injection Hrecords2 as <-.
    vm_compute in Hr. exact Hr.
  - vm_compute in Hqueued. discriminate.
Qed.

(** The two runs of the counterexample, evaluated: the zone is empty
    before the first run and holds what the first run queued before the
    second. *)
Example precreate_twice_trailing_dots :
  let cluster := bareCluster "foo" "api.foo.." "" in
  let t1 := trace (precreateDNS plainProcess cluster (fooCloud [])) in
  let t2 := trace (precreateDNS plainProcess cluster
                     (fooCloud [placeholder "api.foo."])) in
  queued t1 = [placeholder "api.foo."] ∧
  listings t2 = [[placeholder "api.foo."]] ∧
  queued t2 = [placeholder "api.foo."] ∧
  applied t2 = [[placeholder "api.foo."]].
Proof. by vm_compute. Qed.

(** C2, amended.  Take a cluster none of whose desired hostnames still
    ends in a dot once one trailing dot is stripped, and a first run that
    listed the zone's records.  If the listing of the second run holds the
    records the first run listed and the records it queued, the second run
    queues nothing and does not call [Apply]. *)
Theorem precreate_idempotent p1 p2 cluster cloud1 cloud2 records1 :
  let t1 := trace (precreateDNS p1 cluster cloud1) in
  let t2 := trace (precreateDNS p2 cluster cloud2) in
  (∀ dnsHostname, dnsHostname ∈ normalizedHostnames cluster →
     strings.HasSuffix dnsHostname "." = false) →
  listings t1 = [records1] →
  (∀ records2, listings t2 = [records2] →
     ∀ r, r ∈ records1 ++ queued t1 → r ∈ records2) →
  queued t2 = [] ∧ applied t2 = [].
Proof.
  intros t1 t2 Hdot Hlisted Hkept.
  destruct (precreateDNS_reads p2 cluster cloud2)
    as [_ [(Hl2 & Hq2 & Ha2)|(records2 & Hl2 & Hq2 & Ha2)]];
    fold t2 in Hl2, Hq2, Ha2; [done|].
  assert (Hnone : filter (absent (recordsMapOf records2))
                    (normalizedHostnames cluster) = []).
  { apply filter_none. intros h Hh Habsent.
    assert (Hsome : is_Some (recordsMapOf records2 !! ("A::" +:+ h)));
      [|unfold absent in Habsent; rewrite Habsent in Hsome; by destruct Hsome].
    apply recordsMapOf_lookup.
    destruct (precreateDNS_reads p1 cluster cloud1)
      as [_ [(Hl1 & Hq1 & Ha1)|(records1' & Hl1 & Hq1 & Ha1)]];
      fold t1 in Hl1, Hq1, Ha1; [congruence|].
    rewrite Hl1 in Hlisted. injection Hlisted as ->.
    destruct (decide (absent (recordsMapOf records1) h)) as [Ha|Ha].
    - exists (placeholder h). split; [|by apply recordKey_placeholder, Hdot].
      apply (Hkept _ Hl2), elem_of_app. right. rewrite Hq1.
      apply list_elem_of_fmap. exists h. split; [done|].
      by apply list_elem_of_filter.
    - assert (Hpresent : is_Some (recordsMapOf records1 !! ("A::" +:+ h))).
      { unfold absent in Ha.
        by destruct (recordsMapOf records1 !! ("A::" +:+ h)). }
      apply recordsMapOf_lookup in Hpresent as (r & Hr & Hkey).
      exists r. split; [|done]. apply (Hkept _ Hl2), elem_of_app. by left. }
  rewrite Hnone in Hq2. rewrite Ha2, Hq2. by rewrite decide_True.
Qed.

Lemma precreate_idempotent_witness :
  let t2 := trace (precreateDNS plainProcess
                     (bareCluster "foo" "api.foo." "api.internal.foo")
                     (fooCloud [aliasRecord "api.foo.";
                                placeholder "api.internal.foo"])) in
  queued t2 = [] ∧ applied t2 = [].
Proof.
  apply (precreate_idempotent plainProcess plainProcess
           (bareCluster "foo" "api.foo." "api.internal.foo")
           (fooCloud [aliasRecord "api.foo."])
           (fooCloud [aliasRecord "api.foo."; placeholder "api.internal.foo"])
           [aliasRecord "api.foo."]).
  - intros h Hh. vm_compute in Hh.
    apply elem_of_cons in Hh as [->|Hh]; [reflexivity|].
    apply list_elem_of_singleton in Hh as ->. reflexivity.
  - reflexivity.
  - intros records2 Hrecords2 r Hr.
    vm_compute in Hrecords2. injection Hrecords2 as <-.
    vm_compute in Hr. exact Hr.
Defined.

(** ** Validation *)

(** Validation of a cluster that does not use private DNS, once its zone
    is resolved: one NS lookup for the zone's name without its trailing
    dot, and the environment is read only when the lookup finds nothing. *)
Lemma validateDNS_public UsePrivateDNS p cluster cloud zone :
  UsePrivateDNS cluster = false →
  outcome (findZone cluster cloud) = Ok zone →
  let dnsName := strings.TrimSuffix (zone_Name zone) "." in
  validateDNS UsePrivateDNS p cluster cloud =
  (match LookupNS p dnsName with
   | Err err => Err (ErrNSLookup dnsName err)
   | Ok ns =>
     if (length ns =? 0)%nat
        && String.eqb (Getenv p "DNS_IGNORE_NS_CHECK") ""
     then Err (ErrNSRecordsNotFound dnsName)
     else Ok tt
   end,
   trace (findZone cluster cloud) ++
   [Glog (V 2) (LogDoingLookup dnsName); CallLookupNS dnsName] ++
   nsCheckEvents p dnsName).
Proof.
  intros Hpublic Hzone dnsName.
  unfold validateDNS, nsCheckEvents. rewrite Hpublic. cbv zeta.
  rewrite (M_eta (findZone cluster cloud)), Hzone.
  unfold outcome, trace. simpl. fold dnsName. clearbody dnsName.
  destruct (LookupNS p dnsName) as [ns|err]; [|done].
  destruct ns as [|n ns].
  - simpl. by destruct (String.eqb (Getenv p "DNS_IGNORE_NS_CHECK") "").
  - cbn [length Nat.eqb andb].
    rewrite (for_range_append Host (n :: ns) []). done.
Qed.

(** When the zone does not resolve, validation stops there. *)
Lemma validateDNS_unresolved UsePrivateDNS p cluster cloud e :
  UsePrivateDNS cluster = false →
  outcome (findZone cluster cloud) = Err e →
  validateDNS UsePrivateDNS p cluster cloud
  = (Err e, trace (findZone cluster cloud)).
Proof.
  intros Hpublic Hzone. unfold validateDNS. rewrite Hpublic.
  by rewrite (M_eta (findZone cluster cloud)), Hzone.
Qed.

(** [validateDNS] reads the process only through the resolver and the
    value of [DNS_IGNORE_NS_CHECK]. *)
Lemma validateDNS_env UsePrivateDNS p p' cluster cloud :
  LookupNS p = LookupNS p' →
  Getenv p "DNS_IGNORE_NS_CHECK" = Getenv p' "DNS_IGNORE_NS_CHECK" →
  validateDNS UsePrivateDNS p cluster cloud
  = validateDNS UsePrivateDNS p' cluster cloud.
Proof.
  intros Hns Henv.
  destruct (UsePrivateDNS cluster) eqn:Hprivate.
  - unfold validateDNS. by rewrite Hprivate.
  - destruct (outcome (findZone cluster cloud)) as [zone|e] eqn:Hzone.
    + rewrite !(validateDNS_public _ _ _ _ _ Hprivate Hzone).
      unfold nsCheckEvents. by rewrite Hns, Henv.
    + by rewrite !(validateDNS_unresolved _ _ _ _ _ Hprivate Hzone).
Qed.

(** C6. NS-record validation of a cluster that does not use private DNS
    and whose zone resolves: a failing NS lookup gives an [NSLookupFailed]
    error; a lookup that finds no NS record gives a [NoNSRecords] error
    when [DNS_IGNORE_NS_CHECK] has no value and success with a warning when
    it has one; a lookup that finds NS records gives success, whatever
    hosts they name. *)
Theorem validateDNS_ns_check UsePrivateDNS p cluster cloud zone :
  UsePrivateDNS cluster = false →
  outcome (findZone cluster cloud) = Ok zone →
  let dnsName := strings.TrimSuffix (zone_Name zone) "." in
  let run := validateDNS UsePrivateDNS p cluster cloud in
  (∀ err, LookupNS p dnsName = Err err →
     outcome run = Err (ErrNSLookup dnsName err) ∧
     kind (ErrNSLookup dnsName err) = NSLookupFailed) ∧
  (LookupNS p dnsName = Ok [] → Getenv p "DNS_IGNORE_NS_CHECK" = "" →
     outcome run = Err (ErrNSRecordsNotFound dnsName) ∧
     kind (ErrNSRecordsNotFound dnsName) = NoNSRecords) ∧
  (LookupNS p dnsName = Ok [] → Getenv p "DNS_IGNORE_NS_CHECK" ≠ "" →
     outcome run = Ok tt ∧ Glog Warning LogIgnoringNSCheck ∈ trace run) ∧
  (∀ ns, LookupNS p dnsName = Ok ns → ns ≠ [] → outcome run = Ok tt).
Proof.
  intros Hpublic Hzone dnsName run. subst run.
  rewrite (validateDNS_public _ p _ _ _ Hpublic Hzone).
  fold dnsName. unfold outcome, trace, nsCheckEvents. simpl.
  split_and!.
  - by intros err ->.
  - intros -> ->. done.
  - intros -> Henv. apply String.eqb_neq in Henv. rewrite Henv. simpl.
    split; [done|]. rewrite !elem_of_app. right.
    do 3 apply list_elem_of_further. apply list_elem_of_here.
  - intros ns -> Hns. by destruct ns.
Qed.

Lemma validateDNS_ns_check_witness :
  outcome (validateDNS (λ _, false)
             (processOf {[ "DNS_IGNORE_NS_CHECK" := "1" ]} true (Ok []))
             (bareCluster "foo." "api.foo" "") (fooCloud []))
  = Ok tt.
Proof.
  destruct (validateDNS_ns_check (λ _, false)
              (processOf {[ "DNS_IGNORE_NS_CHECK" := "1" ]} true (Ok []))
              (bareCluster "foo." "api.foo" "") (fooCloud [])
              (zoneOf "Z1" "foo." []) eq_refl eq_refl)
    as (_ & _ & Hoverride & _).
  apply Hoverride.
  - reflexivity.
  - vm_compute. discriminate.
Defined.

(** C7. Private-DNS short circuit: for a cluster that uses private DNS,
    [validateDNS] succeeds at once; it logs one line and makes no call, so
    it neither resolves the zone, nor lists zones, nor looks up NS
    records. *)
Theorem validateDNS_private_short_circuit UsePrivateDNS p cluster cloud :
  UsePrivateDNS cluster = true →
  outcome (validateDNS UsePrivateDNS p cluster cloud) = Ok tt ∧
  trace (validateDNS UsePrivateDNS p cluster cloud) = [Glog Info LogPrivateDNS] ∧
  calls (trace (validateDNS UsePrivateDNS p cluster cloud)) = [].
Proof. intros Hprivate. unfold validateDNS. by rewrite Hprivate. Qed.

Lemma validateDNS_private_short_circuit_witness :
  calls (trace (validateDNS (λ _, true) plainProcess
                  (bareCluster "foo." "api.foo" "") (fooCloud []))) = [].
Proof.
  apply (validateDNS_private_short_circuit (λ _, true) plainProcess
           (bareCluster "foo." "api.foo" "") (fooCloud [])).
  reflexivity.
Defined.

(** C8. Feature-flag gate: with DNS pre-creation disabled, [precreateDNS]
    succeeds at once and makes no call (no zone resolution, no listing, no
    changeset); and when no hostname is desired it succeeds without a call
    as well. *)
Theorem precreateDNS_gates p cluster cloud :
  (DNSPreCreate p = false →
     outcome (precreateDNS p cluster cloud) = Ok tt ∧
     calls (trace (precreateDNS p cluster cloud)) = []) ∧
  (outcome (buildPrecreateDNSHostnames cluster) = Ok [] →
     outcome (precreateDNS p cluster cloud) = Ok tt ∧
     calls (trace (precreateDNS p cluster cloud)) = []).
Proof.
  split.
  - intros Hflag. unfold precreateDNS. by rewrite Hflag.
  - intros Hnone. rewrite buildPrecreateDNSHostnames_spec in Hnone.
    injection Hnone as Hnone.
    unfold precreateDNS. destruct (DNSPreCreate p); [|done]. cbn [negb].
    rewrite buildPrecreateDNSHostnames_spec, Hnone.
    unfold outcome, trace. simpl. split; [done|].
    rewrite calls_app, calls_hostnameWarnings. done.
Qed.

Lemma precreateDNS_gates_witness :
  calls (trace (precreateDNS (processOf ∅ false (Ok []))
                  (bareCluster "foo." "api.foo" "") (fooCloud []))) = [] ∧
  calls (trace (precreateDNS plainProcess
                  (bareCluster "foo." "" "") (fooCloud []))) = [].
Proof.
  split.
  - apply (proj1 (precreateDNS_gates (processOf ∅ false (Ok []))
                    (bareCluster "foo." "api.foo" "") (fooCloud []))).
    reflexivity.
  - apply (proj2 (precreateDNS_gates plainProcess
                    (bareCluster "foo." "" "") (fooCloud []))).
    reflexivity.
Defined.

(** C10. The override counts as set exactly when [DNS_IGNORE_NS_CHECK] has
    a non-empty value: validation with the variable set to the empty
    string is validation with the variable unset, and when the lookup finds
    no NS record both fail with the [NoNSRecords] error; validation then
    succeeds if and only if the variable has a non-empty value. *)
Theorem ns_check_override_needs_value UsePrivateDNS p cluster cloud :
  validateDNS UsePrivateDNS (Setenv p "DNS_IGNORE_NS_CHECK" "") cluster cloud
  = validateDNS UsePrivateDNS (Unsetenv p "DNS_IGNORE_NS_CHECK") cluster cloud ∧
  (∀ zone,
     UsePrivateDNS cluster = false →
     outcome (findZone cluster cloud) = Ok zone →
     LookupNS p (strings.TrimSuffix (zone_Name zone) ".") = Ok [] →
     (outcome (validateDNS UsePrivateDNS p cluster cloud) = Ok tt
      ↔ ∃ value, environ p !! "DNS_IGNORE_NS_CHECK" = Some value ∧ value ≠ "") ∧
     outcome (validateDNS UsePrivateDNS (Setenv p "DNS_IGNORE_NS_CHECK" "")
                cluster cloud)
     = Err (ErrNSRecordsNotFound (strings.TrimSuffix (zone_Name zone) ".")) ∧
     outcome (validateDNS UsePrivateDNS (Unsetenv p "DNS_IGNORE_NS_CHECK")
                cluster cloud)
     = Err (ErrNSRecordsNotFound (strings.TrimSuffix (zone_Name zone) "."))).
Proof.
  assert (Hempty : Getenv (Setenv p "DNS_IGNORE_NS_CHECK" "")
                     "DNS_IGNORE_NS_CHECK" = "").
  { unfold Getenv, Setenv. simpl. by rewrite lookup_insert_eq. }
  assert (Hunset : Getenv (Unsetenv p "DNS_IGNORE_NS_CHECK")
                     "DNS_IGNORE_NS_CHECK" = "").
  { unfold Getenv, Unsetenv. simpl. by rewrite lookup_delete_eq. }
  split.
  - apply validateDNS_env; [done|]. by rewrite Hempty, Hunset.
  - intros zone Hpublic Hzone Hns.
    rewrite !(validateDNS_public _ _ _ _ _ Hpublic Hzone).
    unfold outcome. simpl. rewrite Hns, Hempty, Hunset. simpl.
    split_and!; [|done..].
    unfold Getenv.
    destruct (environ p !! "DNS_IGNORE_NS_CHECK") as [value|]; simpl.
    + destruct (String.eqb_spec value "") as [->|Hvalue]; split.
      * done.
      * by intros (v & [= <-] & Hv).
      * eauto.
      * done.
    + split; [done|]. by intros (v & ? & _).
Qed.

Lemma ns_check_override_needs_value_witness :
  outcome (validateDNS (λ _, false)
             (Setenv plainProcess "DNS_IGNORE_NS_CHECK" "")
             (bareCluster "foo." "api.foo" "") (fooCloud []))
  = Err (ErrNSRecordsNotFound "foo").
Proof.
  destruct (ns_check_override_needs_value (λ _, false) plainProcess
              (bareCluster "foo." "api.foo" "") (fooCloud []))
    as [_ Hfatal].
  destruct (Hfatal (zoneOf "Z1" "foo." []) eq_refl eq_refl eq_refl)
    as (_ & Hempty & _).
  exact Hempty.
Defined.

(** * Further properties *)

(** ** Zone resolution: failures *)

(** What [findZone] does when a provider call fails. *)
Lemma findZone_provider_failure cluster cloud :
  (∀ err, cloud_DNS cloud = Err err →
     findZone cluster cloud = (Err (ErrBuildingDNSProvider err), [CallCloudDNS])) ∧
  (∀ dns, cloud_DNS cloud = Ok dns → dns_Zones dns = None →
     findZone cluster cloud
     = (Err ErrGettingZonesProvider, [CallCloudDNS; CallDNSZones])) ∧
  (∀ dns zonesProvider err,
     cloud_DNS cloud = Ok dns → dns_Zones dns = Some zonesProvider →
     zones_List zonesProvider = Err err →
     findZone cluster cloud
     = (Err (ErrListingZones err), [CallCloudDNS; CallDNSZones; CallZonesList])).
Proof.
  unfold findZone. split_and!.
  - by intros err ->.
  - by intros dns -> ->.
  - by intros dns zonesProvider err -> -> ->.
Qed.

(** X1. Every failure of [findZone] is one of four kinds, each with its
    cause: the provider or its zone interface is unavailable, the zone
    listing failed, no listed zone matches, or two or more do.  The index
    expression [matches[0]] is never out of range. *)
Theorem findZone_failure_kinds cluster cloud e :
  outcome (findZone cluster cloud) = Err e →
  (kind e = ProviderUnavailable ∧
     ((∃ err, cloud_DNS cloud = Err err) ∨
      (∃ dns, cloud_DNS cloud = Ok dns ∧ dns_Zones dns = None))) ∨
  (kind e = ZoneLookupFailed ∧
     ∃ dns zonesProvider err,
       cloud_DNS cloud = Ok dns ∧ dns_Zones dns = Some zonesProvider ∧
       zones_List zonesProvider = Err err) ∨
  (∃ dns zonesProvider zones,
     cloud_DNS cloud = Ok dns ∧ dns_Zones dns = Some zonesProvider ∧
     zones_List zonesProvider = Ok zones ∧
     ((kind e = ZoneNotFound ∧
         filter (zone_matches (DNSZone (cluster_Spec cluster))) zones = []) ∨
      (kind e = AmbiguousZone ∧
         (2 ≤ length (filter (zone_matches (DNSZone (cluster_Spec cluster)))
                        zones))%nat))).
Proof.
  intros Hfail.
  destruct (findZone_provider_failure cluster cloud) as (Hdns & Hzones & Hlist).
  destruct (cloud_DNS cloud) as [dns|err] eqn:Edns.
  - destruct (dns_Zones dns) as [zonesProvider|] eqn:Ezones.
    + destruct (zones_List zonesProvider) as [zones|err] eqn:Elist.
      * right. right. exists dns, zonesProvider, zones. split_and!; [done..|].
        rewrite (findZone_listed _ _ _ _ _ Edns Ezones Elist) in Hfail.
        unfold outcome in Hfail. simpl in Hfail.
        destruct (filter _ zones) as [|z1 [|z2 ms]]; simplify_eq.
        -- by left.
        -- right. split; [done|]. simpl. lia.
      * right. left. rewrite (Hlist _ _ _ eq_refl Ezones Elist) in Hfail.
        injection Hfail as <-. split; [done|]. eauto 6.
    + left. rewrite (Hzones _ eq_refl Ezones) in Hfail.
      injection Hfail as <-. split; [done|]. eauto.
  - left. rewrite (Hdns _ eq_refl) in Hfail.
    injection Hfail as <-. split; [done|]. eauto.
Qed.

Lemma findZone_failure_kinds_witness :
  (kind (ErrCannotFindZone "bar") = ProviderUnavailable ∧
     ((∃ err, cloud_DNS (fooCloud []) = Err err) ∨
      (∃ dns, cloud_DNS (fooCloud []) = Ok dns ∧ dns_Zones dns = None))) ∨
  (kind (ErrCannotFindZone "bar") = ZoneLookupFailed ∧
     ∃ dns zonesProvider err,
       cloud_DNS (fooCloud []) = Ok dns ∧ dns_Zones dns = Some zonesProvider ∧
       zones_List zonesProvider = Err err) ∨
  (∃ dns zonesProvider zones,
     cloud_DNS (fooCloud []) = Ok dns ∧ dns_Zones dns = Some zonesProvider ∧
     zones_List zonesProvider = Ok zones ∧
     ((kind (ErrCannotFindZone "bar") = ZoneNotFound ∧
         filter (zone_matches "bar") zones = []) ∨
      (kind (ErrCannotFindZone "bar") = AmbiguousZone ∧
         (2 ≤ length (filter (zone_matches "bar") zones))%nat))).
Proof.
  apply (findZone_failure_kinds (bareCluster "bar" "api.foo" "") (fooCloud [])).
  reflexivity.
Defined.

(** X2. A zone returned by [findZone] is an entry of the provider's
    listing, its ID is the target or its name is the target up to one
    trailing dot, and no other entry of the listing matches. *)
Theorem findZone_returns_listed_match cluster cloud zone :
  outcome (findZone cluster cloud) = Ok zone →
  ∃ dns zonesProvider zones,
    cloud_DNS cloud = Ok dns ∧ dns_Zones dns = Some zonesProvider ∧
    zones_List zonesProvider = Ok zones ∧
    zone ∈ zones ∧
    (zone_ID zone = DNSZone (cluster_Spec cluster) ∨
     strings.TrimSuffix (zone_Name zone) "."
     = strings.TrimSuffix (DNSZone (cluster_Spec cluster)) ".") ∧
    filter (zone_matches (DNSZone (cluster_Spec cluster))) zones = [zone].
Proof.
  intros Hok.
  destruct (findZone_provider_failure cluster cloud) as (Hdns & Hzones & Hlist).
  destruct (cloud_DNS cloud) as [dns|err] eqn:Edns;
    [|by rewrite (Hdns _ eq_refl) in Hok].
  destruct (dns_Zones dns) as [zonesProvider|] eqn:Ezones;
    [|by rewrite (Hzones _ eq_refl Ezones) in Hok].
  destruct (zones_List zonesProvider) as [zones|err] eqn:Elist;
    [|by rewrite (Hlist _ _ _ eq_refl Ezones Elist) in Hok].
  exists dns, zonesProvider, zones. split_and!; [done..| | |].
  all: rewrite (findZone_listed _ _ _ _ _ Edns Ezones Elist) in Hok;
    unfold outcome in Hok; simpl in Hok;
    destruct (filter (zone_matches (DNSZone (cluster_Spec cluster))) zones)
      as [|z1 [|z2 ms]] eqn:Hfilter; simplify_eq.
  - assert (Hin : zone ∈ filter (zone_matches (DNSZone (cluster_Spec cluster)))
                    zones) by (rewrite Hfilter; left).
    by apply list_elem_of_filter in Hin as [_ Hin].
  - assert (Hin : zone ∈ filter (zone_matches (DNSZone (cluster_Spec cluster)))
                    zones) by (rewrite Hfilter; left).
    by apply list_elem_of_filter in Hin as [Hin _].
  - done.
Qed.

Lemma findZone_returns_listed_match_witness :
  ∃ dns zonesProvider zones,
    cloud_DNS (cloudOf [zoneOf "Z1" "foo." []; zoneOf "Z2" "bar." []]) = Ok dns ∧
    dns_Zones dns = Some zonesProvider ∧
    zones_List zonesProvider = Ok zones ∧
    zoneOf "Z2" "bar." [] ∈ zones ∧
    (zone_ID (zoneOf "Z2" "bar." []) = "Z2" ∨
     strings.TrimSuffix (zone_Name (zoneOf "Z2" "bar." [])) "."
     = strings.TrimSuffix "Z2" ".") ∧
    filter (zone_matches "Z2") zones = [zoneOf "Z2" "bar." []].
Proof.
  apply (findZone_returns_listed_match (bareCluster "Z2" "api.foo" "")
           (cloudOf [zoneOf "Z1" "foo." []; zoneOf "Z2" "bar." []])).
  reflexivity.
Defined.

(** ** Zone resolution: the trailing dot of the target *)

Lemma filter_agree {A} (P Q : A → Prop) `{∀ x, Decision (P x)}
    `{∀ x, Decision (Q x)} (l : list A) :
  (∀ x, x ∈ l → (P x ↔ Q x)) → filter P l = filter Q l.
Proof.
  induction l as [|x l IH]; intros Hl; [done|].
  rewrite !filter_cons, IH by (intros y Hy; apply Hl; by right).
  destruct (decide (P x)) as [HP|HP], (decide (Q x)) as [HQ|HQ]; try done.
  - destruct HQ. apply Hl; [left|done].
  - destruct HP. apply Hl; [left|done].
Qed.

(** X3. Writing the target with or without its trailing dot resolves the
    same zone: when no listed zone has either spelling as its ID (IDs are
    compared as given), [findZone] returns the same zone for ["s"] and
    ["s."], finds none for one exactly when it finds none for the other,
    and likewise for several. *)
Theorem findZone_trailing_dot_of_target
    cluster1 cluster2 cloud dns zonesProvider zones s :
  cloud_DNS cloud = Ok dns →
  dns_Zones dns = Some zonesProvider →
  zones_List zonesProvider = Ok zones →
  DNSZone (cluster_Spec cluster1) = s →
  DNSZone (cluster_Spec cluster2) = s +:+ "." →
  strings.HasSuffix s "." = false →
  (∀ zone, zone ∈ zones → zone_ID zone ≠ s ∧ zone_ID zone ≠ s +:+ ".") →
  (∀ zone, outcome (findZone cluster1 cloud) = Ok zone
           ↔ outcome (findZone cluster2 cloud) = Ok zone) ∧
  (outcome (findZone cluster1 cloud) = Err (ErrCannotFindZone s)
   ↔ outcome (findZone cluster2 cloud) = Err (ErrCannotFindZone (s +:+ "."))) ∧
  (outcome (findZone cluster1 cloud) = Err (ErrMultipleZones s)
   ↔ outcome (findZone cluster2 cloud) = Err (ErrMultipleZones (s +:+ "."))).
Proof.
  intros Hdns Hzones Hlist Hs1 Hs2 Hdot Hids.
  rewrite !(findZone_listed _ _ _ _ _ Hdns Hzones Hlist), Hs1, Hs2.
  assert (Hsame : filter (zone_matches s) zones
                  = filter (zone_matches (s +:+ ".")) zones).
  { apply filter_agree. intros zone Hzone. unfold zone_matches.
    rewrite TrimSuffix_app, (TrimSuffix_id s) by done.
    destruct (Hids _ Hzone) as [Hid1 Hid2].
    split; (intros [Hid|Hname]; [done|by right]). }
  rewrite <- Hsame. unfold outcome. simpl.
  destruct (filter (zone_matches s) zones) as [|z1 [|z2 ms]];
    split_and!; try intros zone; split; congruence.
Qed.

Lemma findZone_trailing_dot_of_target_witness :
  outcome (findZone (bareCluster "foo" "api.foo" "") (fooCloud []))
  = Ok (zoneOf "Z1" "foo." [])
  ↔ outcome (findZone (bareCluster "foo." "api.foo" "") (fooCloud []))
    = Ok (zoneOf "Z1" "foo." []).
Proof.
  apply (findZone_trailing_dot_of_target
           (bareCluster "foo" "api.foo" "") (bareCluster "foo." "api.foo" "")
           (fooCloud []) (dnsOf [zoneOf "Z1" "foo." []])
           {| zones_List := Ok [zoneOf "Z1" "foo." []] |}
           [zoneOf "Z1" "foo." []] "foo"
           eq_refl eq_refl eq_refl eq_refl eq_refl eq_refl).
  intros zone Hzone. apply list_elem_of_singleton in Hzone as ->.
  split; discriminate.
Defined.

(** ** Validation: when it succeeds and what it calls *)

(** [findZone] neither looks up NS records nor reads the environment. *)
Lemma findZone_no_lookup cluster cloud :
  lookups (trace (findZone cluster cloud)) = [] ∧
  getenvs (trace (findZone cluster cloud)) = [].
Proof.
  destruct (findZone_trace cluster cloud) as [n ->].
  by destruct n as [|[|[|[|n]]]].
Qed.

(** X4. For a cluster that does not use private DNS, validation succeeds
    exactly when the zone resolves, the NS lookup for its name returns
    without error, and either it returns at least one record or
    [DNS_IGNORE_NS_CHECK] has a non-empty value.  The override rescues
    neither a failed zone resolution nor a failed lookup. *)
Theorem validateDNS_succeeds_iff UsePrivateDNS p cluster cloud :
  UsePrivateDNS cluster = false →
  outcome (validateDNS UsePrivateDNS p cluster cloud) = Ok tt
  ↔ ∃ zone ns,
      outcome (findZone cluster cloud) = Ok zone ∧
      LookupNS p (strings.TrimSuffix (zone_Name zone) ".") = Ok ns ∧
      (ns ≠ [] ∨ Getenv p "DNS_IGNORE_NS_CHECK" ≠ "").
Proof.
  intros Hpublic.
  destruct (outcome (findZone cluster cloud)) as [zone|e] eqn:Hzone.
  - rewrite (validateDNS_public _ p _ _ _ Hpublic Hzone). unfold outcome. simpl.
    destruct (LookupNS p (strings.TrimSuffix (zone_Name zone) "."))
      as [ns|err] eqn:Hns.
    + destruct ns as [|n ns]; simpl.
      * destruct (String.eqb_spec (Getenv p "DNS_IGNORE_NS_CHECK") "")
          as [Henv|Henv]; split.
        -- done.
        -- intros (zone' & ns' & [= <-] & Hns' & Hsome).
           rewrite Hns in Hns'. injection Hns' as <-. by destruct Hsome.
        -- intros _. exists zone, []. auto.
        -- done.
      * split; [|done]. intros _. exists zone, (n :: ns). auto.
    + split; [done|]. intros (zone' & ns' & [= <-] & Hns' & _). congruence.
  - rewrite (validateDNS_unresolved _ p _ _ _ Hpublic Hzone). unfold outcome.
    simpl. split; [done|]. by intros (zone & ns & ? & _).
Qed.

Lemma validateDNS_succeeds_iff_witness :
  outcome (validateDNS (λ _, false)
             (processOf {[ "DNS_IGNORE_NS_CHECK" := "1" ]} true (Err "timeout"))
             (bareCluster "foo." "api.foo" "") (fooCloud []))
  ≠ Ok tt.
Proof.
  intros Hok.
  apply (validateDNS_succeeds_iff (λ _, false)
           (processOf {[ "DNS_IGNORE_NS_CHECK" := "1" ]} true (Err "timeout"))
           (bareCluster "foo." "api.foo" "") (fooCloud []) eq_refl) in Hok.
  destruct Hok as (zone & ns & _ & Hns & _). discriminate Hns.
Defined.

(** [findZone] makes resolution calls only. *)
Lemma findZone_resolves cluster cloud :
  Forall resolves_or_looks_up (calls (trace (findZone cluster cloud))).
Proof.
  destruct (findZone_trace cluster cloud) as [n ->].
  destruct n as [|[|[|[|n]]]]; repeat constructor.
Qed.

(** X5. Validation only reads.  Every call of a run of [validateDNS]
    resolves the zone, looks up NS records or reads the environment: no
    run asks a zone for its record sets, lists records, or starts, fills
    or applies a changeset.  A run that resolves the zone of a cluster
    without private DNS makes exactly one NS lookup, for the name of the
    resolved zone without its trailing dot (not for the cluster's
    [DNSZone], which may be an ID); any other run makes none. *)
Theorem validateDNS_only_reads UsePrivateDNS p cluster cloud :
  let t := trace (validateDNS UsePrivateDNS p cluster cloud) in
  Forall resolves_or_looks_up (calls t) ∧
  (∀ zone, UsePrivateDNS cluster = false →
     outcome (findZone cluster cloud) = Ok zone →
     lookups t = [strings.TrimSuffix (zone_Name zone) "."]) ∧
  (UsePrivateDNS cluster = true ∨ (∃ e, outcome (findZone cluster cloud) = Err e) →
     lookups t = []).
Proof.
  intros t. subst t.
  pose proof (findZone_resolves cluster cloud) as Hres.
  destruct (findZone_no_lookup cluster cloud) as [Hlook _].
  destruct (UsePrivateDNS cluster) eqn:Hprivate.
  { unfold validateDNS. rewrite Hprivate. split_and!; [constructor|done..]. }
  destruct (outcome (findZone cluster cloud)) as [zone|e] eqn:Hzone.
  - rewrite (validateDNS_public _ p _ _ _ Hprivate Hzone).
    change (trace (?r, ?t0)) with t0. split_and!.
    + rewrite !calls_app, !Forall_app. split_and!; [done|repeat constructor|].
      unfold nsCheckEvents.
      destruct (LookupNS p _) as [[|n ns]|err]; [|repeat constructor..].
      destruct (String.eqb _ ""); repeat constructor.
    + intros zone' _ [= <-]. unfold lookups. rewrite !omap_app.
      fold (lookups (trace (findZone cluster cloud))). rewrite Hlook.
      unfold nsCheckEvents.
      destruct (LookupNS p _) as [[|n ns]|err]; [|done..].
      by destruct (String.eqb _ "").
    + intros [?|[e ?]]; done.
  - rewrite (validateDNS_unresolved _ p _ _ _ Hprivate Hzone).
    change (trace (?r, ?t0)) with t0. rewrite Hlook.
    split_and!; done.
Qed.

Lemma validateDNS_only_reads_witness :
  lookups (trace (validateDNS (λ _, false) plainProcess
                    (bareCluster "Z1" "api.foo" "") (fooCloud [])))
  = ["foo"].
Proof.
  destruct (validateDNS_only_reads (λ _, false) plainProcess
              (bareCluster "Z1" "api.foo" "") (fooCloud []))
    as (_ & Hlookup & _).
  apply (Hlookup (zoneOf "Z1" "foo." [])); reflexivity.
Defined.

(** X6. The environment is read only to decide about an empty answer:
    [validateDNS] reads [DNS_IGNORE_NS_CHECK], once, exactly when the
    cluster does not use private DNS, its zone resolves and the NS lookup
    returns no record; in every other run it reads no variable at all. *)
Theorem validateDNS_reads_override_on_empty_answer UsePrivateDNS p cluster cloud :
  let t := trace (validateDNS UsePrivateDNS p cluster cloud) in
  (getenvs t = ["DNS_IGNORE_NS_CHECK"]
   ↔ UsePrivateDNS cluster = false ∧
     ∃ zone, outcome (findZone cluster cloud) = Ok zone ∧
             LookupNS p (strings.TrimSuffix (zone_Name zone) ".") = Ok []) ∧
  (getenvs t = [] ∨ getenvs t = ["DNS_IGNORE_NS_CHECK"]).
Proof.
  intros t. subst t.
  destruct (findZone_no_lookup cluster cloud) as [_ Henv].
  destruct (UsePrivateDNS cluster) eqn:Hprivate.
  { unfold validateDNS. rewrite Hprivate. split; [|by left].
    split; [done|]. by intros [? _]. }
  destruct (outcome (findZone cluster cloud)) as [zone|e] eqn:Hzone.
  - rewrite (validateDNS_public _ p _ _ _ Hprivate Hzone).
    change (trace (?r, ?t0)) with t0.
    unfold getenvs. rewrite !omap_app.
    fold (getenvs (trace (findZone cluster cloud))). rewrite Henv.
    unfold nsCheckEvents.
    destruct (LookupNS p (strings.TrimSuffix (zone_Name zone) "."))
      as [[|n ns]|err] eqn:Hns; simpl.
    + destruct (String.eqb _ ""); simpl; (split; [|by right]);
        (split; [intros _; split; [done|]; by exists zone|done]).
    + split; [|by left]. split; [done|].
      intros (_ & zone' & [= <-] & Hns'). congruence.
    + split; [|by left]. split; [done|].
      intros (_ & zone' & [= <-] & Hns'). congruence.
  - rewrite (validateDNS_unresolved _ p _ _ _ Hprivate Hzone).
    change (trace (?r, ?t0)) with t0. rewrite Henv.
    split; [|by left]. split; [done|]. by intros (_ & zone & ? & _).
Qed.

Lemma validateDNS_reads_override_on_empty_answer_witness :
  getenvs (trace (validateDNS (λ _, false)
                    (processOf ∅ true (Ok [ {| Host := "ns1.example." |} ]))
                    (bareCluster "foo" "api.foo" "") (fooCloud [])))
  ≠ ["DNS_IGNORE_NS_CHECK"].
Proof.
  intros Hread.
  apply (proj1 (validateDNS_reads_override_on_empty_answer (λ _, false)
                  (processOf ∅ true (Ok [ {| Host := "ns1.example." |} ]))
                  (bareCluster "foo" "api.foo" "") (fooCloud []))) in Hread.
  destruct Hread as (_ & zone & _ & Hns). discriminate Hns.
Defined.

(** ** Pre-creation: how it fails *)

Lemma desiredHostnames_nonempty cluster :
  outcome (buildPrecreateDNSHostnames cluster) ≠ Ok [] →
  desiredHostnames cluster ≠ [].
Proof.
  rewrite buildPrecreateDNSHostnames_spec. unfold outcome. simpl.
  intros Hne Hnil. by rewrite Hnil in Hne.
Qed.

(** The runs of [precreateDNS] that stop before the record listing
    succeeds, with what they return and what they call. *)
Lemma precreateDNS_stops p cluster cloud :
  DNSPreCreate p = true →
  desiredHostnames cluster ≠ [] →
  (∀ e, outcome (findZone cluster cloud) = Err e →
     outcome (precreateDNS p cluster cloud) = Err e ∧
     calls (trace (precreateDNS p cluster cloud))
     = calls (trace (findZone cluster cloud))) ∧
  (∀ zone, outcome (findZone cluster cloud) = Ok zone →
     zone_ResourceRecordSets zone = None →
     outcome (precreateDNS p cluster cloud)
     = Err (ErrGettingRecords (zone_Name zone)) ∧
     calls (trace (precreateDNS p cluster cloud))
     = calls (trace (findZone cluster cloud)) ++
       [CallZoneResourceRecordSets (zone_ID zone)]) ∧
  (∀ zone rrs err, outcome (findZone cluster cloud) = Ok zone →
     zone_ResourceRecordSets zone = Some rrs →
     rrs_List rrs = Err err →
     outcome (precreateDNS p cluster cloud)
     = Err (ErrListingRecords (zone_Name zone) err) ∧
     calls (trace (precreateDNS p cluster cloud))
     = calls (trace (findZone cluster cloud)) ++
       [CallZoneResourceRecordSets (zone_ID zone); CallRRSList (Err err)]).
Proof.
  intros Hflag Hne.
  assert (Hlen : (length (desiredHostnames cluster) =? 0)%nat = false)
    by (by destruct (desiredHostnames cluster)).
  split_and!.
  - intros e Hzone.
    assert (Hrun : ∃ t, precreateDNS p cluster cloud = (Err e, t) ∧
                        calls t = calls (trace (findZone cluster cloud))).
    { eexists. split.
      - unfold precreateDNS. rewrite Hflag. cbn [negb].
        eapply bind_run; [apply buildPrecreateDNSHostnames_spec|].
        rewrite Hlen.
        eapply bind_run; [reflexivity|].
        eapply bind_fail.
        rewrite (M_eta (findZone cluster cloud)), Hzone. reflexivity.
      - by rewrite !calls_app, calls_hostnameWarnings. }
    destruct Hrun as (t & -> & Hcalls). by split.
  - intros zone Hzone Hrrs.
    assert (Hrun : ∃ t,
      precreateDNS p cluster cloud = (Err (ErrGettingRecords (zone_Name zone)), t) ∧
      calls t = calls (trace (findZone cluster cloud)) ++
                [CallZoneResourceRecordSets (zone_ID zone)]).
    { eexists. split.
      - unfold precreateDNS. rewrite Hflag. cbn [negb].
        eapply bind_run; [apply buildPrecreateDNSHostnames_spec|].
        rewrite Hlen.
        eapply bind_run; [reflexivity|].
        eapply bind_run;
          [rewrite (M_eta (findZone cluster cloud)), Hzone; reflexivity|].
        rewrite Hrrs. reflexivity.
      - by rewrite !calls_app, calls_hostnameWarnings. }
    destruct Hrun as (t & -> & Hcalls). by split.
  - intros zone rrs err Hzone Hrrs Hlist.
    assert (Hrun : ∃ t,
      precreateDNS p cluster cloud
      = (Err (ErrListingRecords (zone_Name zone) err), t) ∧
      calls t = calls (trace (findZone cluster cloud)) ++
                [CallZoneResourceRecordSets (zone_ID zone); CallRRSList (Err err)]).
    { eexists. split.
      - unfold precreateDNS. rewrite Hflag. cbn [negb].
        eapply bind_run; [apply buildPrecreateDNSHostnames_spec|].
        rewrite Hlen.
        eapply bind_run; [reflexivity|].
        eapply bind_run;
          [rewrite (M_eta (findZone cluster cloud)), Hzone; reflexivity|].
        rewrite Hrrs, Hlist. reflexivity.
      - by rewrite !calls_app, calls_hostnameWarnings. }
    destruct Hrun as (t & -> & Hcalls). by split.
Qed.

(** X7. With pre-creation enabled and something to pre-create,
    [precreateDNS] stops at the first provider failure: a zone resolution
    error is returned as it is, with no call after those of [findZone]; a
    zone without record sets gives a [RecordListFailed] error naming the
    zone (its name as listed, trailing dot included) and a failed record
    listing gives one carrying the provider's error; in neither case is a
    changeset started. *)
Theorem precreateDNS_stops_at_first_failure p cluster cloud :
  DNSPreCreate p = true →
  outcome (buildPrecreateDNSHostnames cluster) ≠ Ok [] →
  let run := precreateDNS p cluster cloud in
  (∀ e, outcome (findZone cluster cloud) = Err e →
     outcome run = Err e ∧
     calls (trace run) = calls (trace (findZone cluster cloud))) ∧
  (∀ zone, outcome (findZone cluster cloud) = Ok zone →
     zone_ResourceRecordSets zone = None →
     outcome run = Err (ErrGettingRecords (zone_Name zone)) ∧
     kind (ErrGettingRecords (zone_Name zone)) = RecordListFailed ∧
     calls (trace run)
     = calls (trace (findZone cluster cloud)) ++
       [CallZoneResourceRecordSets (zone_ID zone)]) ∧
  (∀ zone rrs err, outcome (findZone cluster cloud) = Ok zone →
     zone_ResourceRecordSets zone = Some rrs →
     rrs_List rrs = Err err →
     outcome run = Err (ErrListingRecords (zone_Name zone) err) ∧
     kind (ErrListingRecords (zone_Name zone) err) = RecordListFailed ∧
     calls (trace run)
     = calls (trace (findZone cluster cloud)) ++
       [CallZoneResourceRecordSets (zone_ID zone); CallRRSList (Err err)]).
Proof.
  intros Hflag Hne run. subst run.
  destruct (precreateDNS_stops p cluster cloud Hflag
              (desiredHostnames_nonempty _ Hne)) as (Hzone & Hrrs & Hlist).
  split_and!.
  - exact Hzone.
  - intros zone Hz Hnone. destruct (Hrrs zone Hz Hnone). done.
  - intros zone rrs err Hz Hsome Herr.
    destruct (Hlist zone rrs err Hz Hsome Herr). done.
Qed.

Lemma precreateDNS_stops_at_first_failure_witness :
  outcome (precreateDNS plainProcess (bareCluster "bar" "api.bar" "")
             (fooCloud []))
  = Err (ErrCannotFindZone "bar").
Proof.
  destruct (precreateDNS_stops_at_first_failure plainProcess
              (bareCluster "bar" "api.bar" "") (fooCloud []))
    as (Hzone & _).
  - reflexivity.
  - vm_compute. discriminate.
  - apply (Hzone (ErrCannotFindZone "bar")). reflexivity.
Defined.

(** X8. Once the records are listed, [precreateDNS] ends in one of two
    ways.  When nothing is queued it succeeds and does not call [Apply],
    whatever [Apply] would answer.  When records are queued it calls
    [Apply] once, on the queue, and its result is the answer: no error
    gives success, an error comes back as a [ChangesetApplyFailed] error
    carrying it. *)
Theorem precreateDNS_outcome_after_listing p cluster cloud zone rrs records :
  DNSPreCreate p = true →
  outcome (buildPrecreateDNSHostnames cluster) ≠ Ok [] →
  outcome (findZone cluster cloud) = Ok zone →
  zone_ResourceRecordSets zone = Some rrs →
  rrs_List rrs = Ok records →
  let run := precreateDNS p cluster cloud in
  (queued (trace run) = [] →
     outcome run = Ok tt ∧ applied (trace run) = []) ∧
  (queued (trace run) ≠ [] →
     applied (trace run) = [queued (trace run)] ∧
     (rrs_Apply rrs (queued (trace run)) = None → outcome run = Ok tt) ∧
     (∀ err, rrs_Apply rrs (queued (trace run)) = Some err →
        outcome run = Err (ErrPrecreating err) ∧
        kind (ErrPrecreating err) = ChangesetApplyFailed)).
Proof.
  intros Hflag Hne Hzone Hrrs Hlist run. subst run.
  pose proof (desiredHostnames_nonempty _ Hne) as Hne'.
  destruct (precreateDNS_diff _ _ _ _ _ _ Hflag Hne' Hzone Hrrs Hlist)
    as [_ Hout].
  destruct (precreateDNS_diff_reads _ _ _ _ _ _ Hflag Hne' Hzone Hrrs Hlist)
    as (_ & Hq & Ha & _).
  rewrite Hq, Hout, Ha. split.
  - intros Hnil. by rewrite !decide_True.
  - intros Hsome. rewrite !decide_False by done. split_and!.
    + done.
    + by intros ->.
    + by intros err ->.
Qed.

Lemma precreateDNS_outcome_after_listing_witness :
  outcome (precreateDNS plainProcess (bareCluster "foo" "api.foo" "")
             (cloudOf [ {| zone_ID := "Z1"; zone_Name := "foo.";
                           zone_ResourceRecordSets :=
                             Some {| rrs_List := Ok [aliasRecord "api.foo."];
                                     rrs_Apply := λ _, Some "denied" |} |} ]))
  = Ok tt.
Proof.
  destruct (precreateDNS_outcome_after_listing plainProcess
              (bareCluster "foo" "api.foo" "")
              (cloudOf [ {| zone_ID := "Z1"; zone_Name := "foo.";
                            zone_ResourceRecordSets :=
                              Some {| rrs_List := Ok [aliasRecord "api.foo."];
                                      rrs_Apply := λ _, Some "denied" |} |} ])
              {| zone_ID := "Z1"; zone_Name := "foo.";
                 zone_ResourceRecordSets :=
                   Some {| rrs_List := Ok [aliasRecord "api.foo."];
                           rrs_Apply := λ _, Some "denied" |} |}
              {| rrs_List := Ok [aliasRecord "api.foo."];
                 rrs_Apply := λ _, Some "denied" |}
              [aliasRecord "api.foo."]) as [Hnothing _].
  - reflexivity.
  - vm_compute. discriminate.
  - reflexivity.
  - reflexivity.
  - reflexivity.
  - destruct Hnothing as [Hok _]; [reflexivity|exact Hok].
Defined.

(** X9. Validation and pre-creation resolve the zone the same way: for a
    cluster without private DNS that [validateDNS] accepted, [precreateDNS]
    on the same cloud cannot fail in zone resolution; if it fails, it is
    with a [RecordListFailed] or a [ChangesetApplyFailed] error. *)
Theorem precreateDNS_after_validateDNS UsePrivateDNS p p' cluster cloud e :
  UsePrivateDNS cluster = false →
  outcome (validateDNS UsePrivateDNS p cluster cloud) = Ok tt →
  outcome (precreateDNS p' cluster cloud) = Err e →
  kind e = RecordListFailed ∨ kind e = ChangesetApplyFailed.
Proof.
  intros Hpublic Hvalid Hfail.
  destruct (outcome (findZone cluster cloud)) as [zone|e'] eqn:Hzone;
    [|by rewrite (validateDNS_unresolved _ p _ _ _ Hpublic Hzone) in Hvalid].
  destruct (DNSPreCreate p') eqn:Hflag;
    [|by unfold precreateDNS in Hfail; rewrite Hflag in Hfail].
  destruct (decide (desiredHostnames cluster = [])) as [Hnil|Hne].
  { unfold precreateDNS in Hfail. rewrite Hflag in Hfail. cbn [negb] in Hfail.
    rewrite buildPrecreateDNSHostnames_spec, Hnil in Hfail. done. }
  destruct (precreateDNS_stops p' cluster cloud Hflag Hne) as (_ & Hrrs & Hlist).
  destruct (zone_ResourceRecordSets zone) as [rrs|] eqn:Erss.
  - destruct (rrs_List rrs) as [records|err] eqn:Elist.
    + destruct (precreateDNS_diff _ _ _ _ _ _ Hflag Hne Hzone Erss Elist)
        as [_ Hout].
      rewrite Hout in Hfail. case_decide; [done|].
      destruct (rrs_Apply rrs _); [|done]. injection Hfail as <-. by right.
    + destruct (Hlist zone rrs err Hzone Erss Elist) as [Hout _].
      rewrite Hout in Hfail. injection Hfail as <-. by left.
  - destruct (Hrrs zone Hzone Erss) as [Hout _].
    rewrite Hout in Hfail. injection Hfail as <-. by left.
Qed.

Lemma precreateDNS_after_validateDNS_witness :
  kind (ErrGettingRecords "foo.") = RecordListFailed ∨
  kind (ErrGettingRecords "foo.") = ChangesetApplyFailed.
Proof.
  apply (precreateDNS_after_validateDNS (λ _, false)
           (processOf ∅ true (Ok [ {| Host := "ns1.example." |} ])) plainProcess
           (bareCluster "foo" "api.foo" "")
           (cloudOf [ {| zone_ID := "Z1"; zone_Name := "foo.";
                         zone_ResourceRecordSets := None |} ])).
  - reflexivity.
  - reflexivity.
  - reflexivity.
Defined.

(** ** Pre-creation: what it queues *)

(** Either a run stops before the record listing succeeds, or it gets the
    listing of the resolved zone. *)
Lemma precreateDNS_reaches p cluster cloud :
  (DNSPreCreate p = false ∨
   desiredHostnames cluster = [] ∨
   (∃ e, outcome (findZone cluster cloud) = Err e) ∨
   (∃ zone, outcome (findZone cluster cloud) = Ok zone ∧
      (zone_ResourceRecordSets zone = None ∨
       ∃ rrs err, zone_ResourceRecordSets zone = Some rrs ∧
                  rrs_List rrs = Err err))) ∨
  (∃ zone rrs records,
     DNSPreCreate p = true ∧ desiredHostnames cluster ≠ [] ∧
     outcome (findZone cluster cloud) = Ok zone ∧
     zone_ResourceRecordSets zone = Some rrs ∧ rrs_List rrs = Ok records).
Proof.
  destruct (DNSPreCreate p) eqn:Hflag; [|auto].
  destruct (decide (desiredHostnames cluster = [])) as [Hnil|Hne]; [auto|].
  destruct (outcome (findZone cluster cloud)) as [zone|e] eqn:Hzone;
    [|left; eauto 6].
  destruct (zone_ResourceRecordSets zone) as [rrs|] eqn:Hrrs;
    [|left; eauto 8].
  destruct (rrs_List rrs) as [records|err] eqn:Hlist; [|left; eauto 10].
  right. exists zone, rrs, records. done.
Qed.

(** X10. Whatever the zone holds and however the run ends, every record
    [precreateDNS] queues is a placeholder for a desired hostname: its name
    is one of the names [buildPrecreateDNSHostnames] returned, less one
    trailing dot, its type is [A], its data the placeholder address and its
    TTL 10. *)
Theorem precreateDNS_queues_only_desired_placeholders p cluster cloud :
  ∃ dnsHostnames,
    outcome (buildPrecreateDNSHostnames cluster) = Ok dnsHostnames ∧
    Forall (λ r,
              (∃ dnsHostname, dnsHostname ∈ dnsHostnames ∧
                 rr_Name r = strings.TrimSuffix dnsHostname ".") ∧
              rr_Type r = "A" ∧ rr_Rrdatas r = ["203.0.113.123"] ∧
              rr_Ttl r = 10)
           (queued (trace (precreateDNS p cluster cloud))).
Proof.
  exists (desiredHostnames cluster).
  split; [by rewrite buildPrecreateDNSHostnames_spec|].
  apply Forall_forall. intros r Hr.
  destruct (precreateDNS_reads p cluster cloud)
    as [_ [(Hl & Hq & Ha)|(records & Hl & Hq & Ha)]].
  - rewrite Hq in Hr. by apply elem_of_nil in Hr.
  - rewrite Hq in Hr. apply list_elem_of_fmap in Hr as (h & -> & Hh).
    apply list_elem_of_filter in Hh as [_ Hh].
    apply list_elem_of_fmap in Hh as (h0 & -> & Hh0).
    split; [|done]. by exists h0.
Qed.




(** ** Pre-creation: running it again *)

(** X12. Running [precreateDNS] again when the listing shows each queued
    name with one more dot: if the first run listed the zone's records,
    and the second run's listing keeps those records and holds, for each
    record the first run queued, an [A] record whose name is the queued
    name with one dot appended, then the second run queues nothing and
    does not call [Apply].  This needs no condition on the cluster's
    hostnames. *)
Theorem precreateDNS_idempotent_dot_appended
    p1 p2 cluster cloud1 cloud2 records1 :
  let t1 := trace (precreateDNS p1 cluster cloud1) in
  let t2 := trace (precreateDNS p2 cluster cloud2) in
  listings t1 = [records1] →
  (∀ records2, listings t2 = [records2] →
     (∀ r, r ∈ records1 → r ∈ records2) ∧
     (∀ r, r ∈ queued t1 →
        ∃ listed, listed ∈ records2 ∧ rr_Type listed = "A" ∧
                  rr_Name listed = rr_Name r +:+ ".")) →
  queued t2 = [] ∧ applied t2 = [].
Proof.
  intros t1 t2 Hlisted Hkept.
  destruct (precreateDNS_reads p2 cluster cloud2)
    as [_ [(Hl2 & Hq2 & Ha2)|(records2 & Hl2 & Hq2 & Ha2)]];
    fold t2 in Hl2, Hq2, Ha2; [done|].
  destruct (Hkept _ Hl2) as [Hold Hnew].
  assert (Hnone : filter (absent (recordsMapOf records2))
                    (normalizedHostnames cluster) = []).
  { apply filter_none. intros h Hh Habsent.
    assert (Hsome : is_Some (recordsMapOf records2 !! ("A::" +:+ h)));
      [|unfold absent in Habsent; rewrite Habsent in Hsome; by destruct Hsome].
    apply recordsMapOf_lookup.
    destruct (precreateDNS_reads p1 cluster cloud1)
      as [_ [(Hl1 & Hq1 & Ha1)|(records1' & Hl1 & Hq1 & Ha1)]];
      fold t1 in Hl1, Hq1, Ha1; [congruence|].
    rewrite Hl1 in Hlisted. injection Hlisted as ->.
    destruct (decide (absent (recordsMapOf records1) h)) as [Ha|Ha].
    - destruct (Hnew (placeholder h)) as (listed & Hin & Htype & Hname).
      { rewrite Hq1. apply list_elem_of_fmap. exists h. split; [done|].
        by apply list_elem_of_filter. }
      exists listed. split; [done|]. unfold recordKey.
      rewrite Htype, Hname. simpl. by rewrite TrimSuffix_app.
    - assert (Hpresent : is_Some (recordsMapOf records1 !! ("A::" +:+ h))).
      { unfold absent in Ha.
        by destruct (recordsMapOf records1 !! ("A::" +:+ h)). }
      apply recordsMapOf_lookup in Hpresent as (r & Hr & Hkey).
      exists r. split; [by apply Hold|done]. }
  rewrite Hnone in Hq2. rewrite Ha2, Hq2. by rewrite decide_True.
Qed.

Lemma precreateDNS_idempotent_dot_appended_witness :
  let t2 := trace (precreateDNS plainProcess
                     (bareCluster "foo" "api.foo.." "")
                     (fooCloud [ {| rr_Name := "api.foo.."; rr_Rrdatas := ["203.0.113.123"];
                                    rr_Ttl := 10; rr_Type := "A" |} ])) in
  queued t2 = [] ∧ applied t2 = [].
Proof.
  apply (precreateDNS_idempotent_dot_appended plainProcess plainProcess
           (bareCluster "foo" "api.foo.." "") (fooCloud [])
           (fooCloud [ {| rr_Name := "api.foo.."; rr_Rrdatas := ["203.0.113.123"];
                          rr_Ttl := 10; rr_Type := "A" |} ]) []).
  - reflexivity.
  - intros records2 Hrecords2.
    vm_compute in Hrecords2. injection Hrecords2 as <-. split.
    + intros r Hr. by apply elem_of_nil in Hr.
    + intros r Hr. vm_compute in Hr.
      apply list_elem_of_singleton in Hr as ->.
      eexists. split; [left|]. split; reflexivity.
Defined.

Lemma listCalls_calls t : listCalls (calls t) = listCalls t.
Proof. by apply omap_calls. Qed.

Lemma listCalls_adds (adds : list ResourceRecordSet) :
  listCalls (CallChangesetAdd <$> adds) = [].
Proof. by induction adds. Qed.

Lemma findZone_no_listCalls cluster cloud :
  listCalls (calls (trace (findZone cluster cloud))) = [].
Proof.
  destruct (findZone_trace cluster cloud) as [n ->].
  by destruct n as [|[|[|[|n]]]].
Qed.

(** A run that is switched off, or has nothing to pre-create, makes no
    call. *)
Lemma precreateDNS_idle p cluster cloud :
  DNSPreCreate p = false ∨ desiredHostnames cluster = [] →
  calls (trace (precreateDNS p cluster cloud)) = [].
Proof.
  intros Hidle. unfold precreateDNS.
  destruct (DNSPreCreate p); [|done]. destruct Hidle as [?|Hnil]; [done|].
  cbn [negb]. rewrite buildPrecreateDNSHostnames_spec, Hnil.
  change (trace (?r, ?t0)) with t0. simpl.
  by rewrite calls_app, calls_hostnameWarnings.
Qed.

(** X13. A run of [precreateDNS] calls [rrs.List()] at most once, whether
    the listing succeeds or fails, and applies at most one changeset;
    [Apply], when called, is the last call of the run. *)
Theorem precreateDNS_applies_once_at_the_end p cluster cloud :
  let t := trace (precreateDNS p cluster cloud) in
  (length (listCalls t) ≤ 1)%nat ∧
  (length (applied t) ≤ 1)%nat ∧
  Forall (λ batch, last (calls t) = Some (CallChangesetApply batch)) (applied t).
Proof.
  intros t. subst t.
  rewrite <- listCalls_calls.
  pose proof (findZone_no_listCalls cluster cloud) as Hfz.
  destruct (precreateDNS_reaches p cluster cloud)
    as [Hearly|(zone & rrs & records & Hflag & Hne & Hzone & Hrrs & Hlist)].
  - destruct (precreateDNS_early_reads p cluster cloud Hearly)
      as (_ & _ & -> & _).
    split_and!; [|simpl; lia|constructor].
    destruct Hearly as [Hoff|[Hnil|Hfail]];
      [rewrite precreateDNS_idle by auto; simpl; lia..|].
    destruct (DNSPreCreate p) eqn:Hflag;
      [|rewrite precreateDNS_idle by auto; simpl; lia].
    destruct (decide (desiredHostnames cluster = [])) as [Hnil|Hne];
      [rewrite precreateDNS_idle by auto; simpl; lia|].
    destruct (precreateDNS_stops p cluster cloud Hflag Hne)
      as (Hzone & Hrrs & Hlist).
    destruct Hfail as [[e He]|(zone & Hz & [Hnone|(rrs & err & Hsome & Herr)])].
    + destruct (Hzone e He) as [_ ->]. rewrite Hfz. simpl. lia.
    + destruct (Hrrs zone Hz Hnone) as [_ ->].
      unfold listCalls in *. rewrite omap_app, Hfz. simpl. lia.
    + destruct (Hlist zone rrs err Hz Hsome Herr) as [_ ->].
      unfold listCalls in *. rewrite omap_app, Hfz. simpl. lia.
  - destruct (precreateDNS_diff_reads _ _ _ _ _ _ Hflag Hne Hzone Hrrs Hlist)
      as (_ & _ & -> & _).
    destruct (precreateDNS_diff _ _ _ _ _ _ Hflag Hne Hzone Hrrs Hlist)
      as [-> _].
    split_and!.
    + unfold listCalls in *. rewrite !omap_app, Hfz.
      fold (listCalls (CallChangesetAdd <$>
              (placeholder <$> filter (absent (recordsMapOf records))
                                      (normalizedHostnames cluster)))).
      rewrite listCalls_adds. case_decide; simpl; lia.
    + case_decide; simpl; lia.
    + case_decide; [constructor|].
      apply Forall_singleton. by rewrite !app_assoc, last_snoc.
Qed.

(** ** Hostname derivation: size, warnings, shape *)

Lemma bind_nil_iff {A B} (f : A → list B) (l : list A) :
  l ≫= f = [] ↔ Forall (λ x, f x = []) l.
Proof.
  induction l as [|x l IH].
  - split; [constructor|done].
  - rewrite bind_cons, Forall_cons, <- IH. split.
    + by intros [? ?]%app_eq_nil.
    + by intros [-> ->].
Qed.

Lemma length_bind_members (clusters : list EtcdClusterSpec) (f : EtcdClusterSpec → EtcdMemberSpec → string) :
  length (etcdCluster ← clusters;
          etcdClusterMember ← etcd_Members etcdCluster;
          [f etcdCluster etcdClusterMember])
  = sum_list ((λ etcdCluster, length (etcd_Members etcdCluster)) <$> clusters).
Proof.
  induction clusters as [|ec clusters IH]; [done|].
  rewrite bind_cons, length_app, IH, fmap_cons. simpl. f_equal.
  induction (etcd_Members ec) as [|m ms IHm]; [done|].
  rewrite bind_cons. simpl. by rewrite IHm.
Qed.

(** X14. [buildPrecreateDNSHostnames] returns one name per master name
    that is set and one per etcd member.  It returns no name, which makes
    [precreateDNS] a no-op, exactly when neither master name is set and no
    etcd cluster has a member. *)
Theorem buildPrecreateDNSHostnames_count cluster :
  ∃ dnsHostnames,
    outcome (buildPrecreateDNSHostnames cluster) = Ok dnsHostnames ∧
    length dnsHostnames
    = ((if decide (MasterPublicName (cluster_Spec cluster) = "") then 0 else 1) +
       (if decide (MasterInternalName (cluster_Spec cluster) = "") then 0 else 1) +
       sum_list ((λ etcdCluster, length (etcd_Members etcdCluster))
                 <$> EtcdClusters (cluster_Spec cluster)))%nat ∧
    (dnsHostnames = []
     ↔ MasterPublicName (cluster_Spec cluster) = "" ∧
       MasterInternalName (cluster_Spec cluster) = "" ∧
       Forall (λ etcdCluster, etcd_Members etcdCluster = [])
              (EtcdClusters (cluster_Spec cluster))).
Proof.
  exists (desiredHostnames cluster).
  split; [by rewrite buildPrecreateDNSHostnames_spec|].
  unfold desiredHostnames. split.
  - rewrite !length_app, length_bind_members. repeat case_decide; simpl; lia.
  - split.
    + intros Hnil.
      apply app_eq_nil in Hnil as [Hpub Hnil].
      apply app_eq_nil in Hnil as [Hint Hetcd].
      split_and!.
      * destruct (decide (MasterPublicName (cluster_Spec cluster) = ""));
          [done|discriminate Hpub].
      * destruct (decide (MasterInternalName (cluster_Spec cluster) = ""));
          [done|discriminate Hint].
      * apply bind_nil_iff in Hetcd. eapply Forall_impl; [exact Hetcd|].
        intros ec. cbv beta. destruct (etcd_Members ec) as [|m ms]; [done|].
        rewrite bind_cons. discriminate.
    + intros (Hpub & Hint & Hetcd).
      rewrite !decide_True by done. simpl.
      apply bind_nil_iff. eapply Forall_impl; [exact Hetcd|].
      by intros ec ->.
Qed.

(** X15. [buildPrecreateDNSHostnames] contacts nobody: its trace holds
    log lines only.  It warns that the master public name cannot be
    pre-created exactly when that name is empty, and likewise for the
    master internal name. *)
Theorem buildPrecreateDNSHostnames_warnings cluster :
  let t := trace (buildPrecreateDNSHostnames cluster) in
  calls t = [] ∧
  (Glog Warning LogNoMasterPublicName ∈ t
   ↔ MasterPublicName (cluster_Spec cluster) = "") ∧
  (Glog Warning LogNoMasterInternalName ∈ t
   ↔ MasterInternalName (cluster_Spec cluster) = "").
Proof.
  intros t. subst t. rewrite buildPrecreateDNSHostnames_spec.
  change (trace (?r, ?t0)) with t0.
  split; [apply calls_hostnameWarnings|].
  unfold hostnameWarnings.
  destruct (decide (MasterPublicName (cluster_Spec cluster) = "")),
    (decide (MasterInternalName (cluster_Spec cluster) = ""));
    simpl; rewrite ?elem_of_cons, ?elem_of_nil; intuition congruence.
Qed.

Lemma append_assoc (s1 s2 s3 : string) :
  (s1 +:+ s2) +:+ s3 = s1 +:+ s2 +:+ s3.
Proof.
  induction s1 as [|c s1 IH]; [done|].
  cbv [String.append]. fold String.append. by rewrite IH.
Qed.

(** X16. The list [buildPrecreateDNSHostnames] returns is the master
    public name when it is set, then the master internal name when it is
    set, then the etcd names: as many as there are etcd members, each of
    the form ["etcd-" + rest + ".internal." + objectName]. *)
Theorem buildPrecreateDNSHostnames_shape cluster :
  ∃ etcds,
    outcome (buildPrecreateDNSHostnames cluster)
    = Ok ((if decide (MasterPublicName (cluster_Spec cluster) = "") then []
           else [MasterPublicName (cluster_Spec cluster)]) ++
          (if decide (MasterInternalName (cluster_Spec cluster) = "") then []
           else [MasterInternalName (cluster_Spec cluster)]) ++
          etcds) ∧
    length etcds
    = sum_list ((λ etcdCluster, length (etcd_Members etcdCluster))
                <$> EtcdClusters (cluster_Spec cluster)) ∧
    Forall (λ dnsHostname,
              ∃ rest, dnsHostname
                      = "etcd-" +:+ rest +:+ ".internal."
                        +:+ Name (cluster_ObjectMeta cluster))
           etcds.
Proof.
  rewrite buildPrecreateDNSHostnames_spec. unfold desiredHostnames.
  eexists. split; [reflexivity|]. split.
  - apply length_bind_members.
  - apply Forall_forall. intros h Hh.
    apply list_elem_of_bind in Hh as (ec & Hh & _).
    apply list_elem_of_bind in Hh as (m & Hh & _).
    apply list_elem_of_singleton in Hh as ->. unfold etcdHostname.
    case_decide.
    + by exists (member_Name m).
    + exists (etcd_Name ec +:+ "-" +:+ member_Name m).
      by rewrite !append_assoc.
Qed.

(** X17. The ["main"] alias makes the naming ambiguous: member
    [c + "-" + m] of the etcd cluster ["main"] gets the hostname of member
    [m] of the etcd cluster [c], for every [c] other than ["main"]. *)
Theorem buildPrecreateDNSHostnames_main_alias_collides
    (meta : ObjectMeta) (dnsZone masterPublicName masterInternalName : string)
    (c m : string) :
  c ≠ "main" →
  let cluster etcdClusters :=
    {| cluster_ObjectMeta := meta;
       cluster_Spec := {| DNSZone := dnsZone;
                          MasterPublicName := masterPublicName;
                          MasterInternalName := masterInternalName;
                          EtcdClusters := etcdClusters |} |} in
  outcome (buildPrecreateDNSHostnames
             (cluster [ {| etcd_Name := "main";
                           etcd_Members := [ {| member_Name := c +:+ "-" +:+ m |} ] |} ]))
  = outcome (buildPrecreateDNSHostnames
               (cluster [ {| etcd_Name := c;
                             etcd_Members := [ {| member_Name := m |} ] |} ])).
Proof.
  intros Hc cluster. subst cluster.
  rewrite !buildPrecreateDNSHostnames_spec. unfold outcome, desiredHostnames.
  simpl. do 3 f_equal. unfold etcdHostname.
  rewrite decide_True, decide_False by done.
  by rewrite !append_assoc.
Qed.

Lemma buildPrecreateDNSHostnames_main_alias_collides_witness :
  outcome (buildPrecreateDNSHostnames
             {| cluster_ObjectMeta := {| Name := "foo" |};
                cluster_Spec :=
                  {| DNSZone := "foo"; MasterPublicName := "";
                     MasterInternalName := "";
                     EtcdClusters :=
                       [ {| etcd_Name := "main";
                            etcd_Members := [ {| member_Name := "events-b" |} ] |} ] |} |})
  = outcome (buildPrecreateDNSHostnames
               {| cluster_ObjectMeta := {| Name := "foo" |};
                  cluster_Spec :=
                    {| DNSZone := "foo"; MasterPublicName := "";
                       MasterInternalName := "";
                       EtcdClusters :=
                         [ {| etcd_Name := "events";
                              etcd_Members := [ {| member_Name := "b" |} ] |} ] |} |}).
Proof.
  apply (buildPrecreateDNSHostnames_main_alias_collides
           {| Name := "foo" |} "foo" "" "" "events" "b").
  discriminate.
Defined.

(** ** Zone resolution: an empty target *)

Lemma TrimSuffix_dot_empty (s : string) :
  strings.TrimSuffix s "." = "" ↔ s = "" ∨ s = ".".
Proof.
  split.
  - destruct s as [|c [|c' s]].
    + by left.
    + unfold strings.TrimSuffix, strings.HasSuffix. simpl.
      destruct (Ascii.eqb_spec c
                  (Ascii.Ascii false true true true false true false false))
        as [->|Hne]; [by right|done].
    + unfold strings.TrimSuffix. destruct (strings.HasSuffix _ _); [|done].
      simpl. discriminate.
  - by intros [-> | ->].
Qed.

(** X18. An empty [DNSZone] is not refused: it selects the zones whose ID
    is empty or whose name is empty or the root [.].  With exactly one
    such zone listed [findZone] returns it; with none it reports that zone
    [""] cannot be found. *)
Theorem findZone_empty_target cluster cloud dns zonesProvider zones :
  cloud_DNS cloud = Ok dns →
  dns_Zones dns = Some zonesProvider →
  zones_List zonesProvider = Ok zones →
  DNSZone (cluster_Spec cluster) = "" →
  let selected :=
    filter (λ zone, zone_ID zone = "" ∨ zone_Name zone = "" ∨ zone_Name zone = ".")
           zones in
  (∀ zone, selected = [zone] → outcome (findZone cluster cloud) = Ok zone) ∧
  (selected = [] → outcome (findZone cluster cloud) = Err (ErrCannotFindZone "")).
Proof.
  intros Hdns Hzones Hlist Hempty selected.
  rewrite (findZone_listed _ _ _ _ _ Hdns Hzones Hlist), Hempty.
  assert (Hsame : filter (zone_matches "") zones = selected).
  { apply filter_agree. intros zone _. unfold zone_matches.
    change (strings.TrimSuffix "" ".") with "".
    by rewrite TrimSuffix_dot_empty. }
  rewrite Hsame. unfold outcome. simpl. split.
  - by intros zone ->.
  - by intros ->.
Qed.

Lemma findZone_empty_target_witness :
  outcome (findZone (bareCluster "" "api.foo" "")
             (cloudOf [zoneOf "Z0" "." []; zoneOf "Z1" "foo." []]))
  = Ok (zoneOf "Z0" "." []).
Proof.
  destruct (findZone_empty_target (bareCluster "" "api.foo" "")
              (cloudOf [zoneOf "Z0" "." []; zoneOf "Z1" "foo." []])
              (dnsOf [zoneOf "Z0" "." []; zoneOf "Z1" "foo." []])
              {| zones_List := Ok [zoneOf "Z0" "." []; zoneOf "Z1" "foo." []] |}
              [zoneOf "Z0" "." []; zoneOf "Z1" "foo." []]
              eq_refl eq_refl eq_refl eq_refl) as [Hone _].
  apply Hone. vm_compute. reflexivity.
Defined.

(** ** Pre-creation: a fuller zone *)

Lemma filter_sublist_impl {A} (P Q : A → Prop) `{∀ x, Decision (P x)}
    `{∀ x, Decision (Q x)} (l : list A) :
  (∀ x, P x → Q x) → filter P l `sublist_of` filter Q l.
Proof.
  intros HPQ. induction l as [|x l IH]; [done|].
  rewrite !filter_cons.
  destruct (decide (P x)) as [HP|HP], (decide (Q x)) as [HQ|HQ].
  - by apply sublist_skip.
  - by destruct HQ; auto.
  - by apply sublist_cons.
  - done.
Qed.

(** X19. A fuller zone never causes more pre-creation: of two runs that
    list the zone's records for the same cluster, when the second listing
    holds every record of the first, the records the second run queues
    are, in order, among those the first run queues. *)
Theorem precreateDNS_queue_shrinks p1 p2 cluster cloud1 cloud2 records1 records2 :
  let t1 := trace (precreateDNS p1 cluster cloud1) in
  let t2 := trace (precreateDNS p2 cluster cloud2) in
  listings t1 = [records1] →
  listings t2 = [records2] →
  (∀ r, r ∈ records1 → r ∈ records2) →
  queued t2 `sublist_of` queued t1.
Proof.
  intros t1 t2 Hl1 Hl2 Hmore.
  destruct (precreateDNS_reads p1 cluster cloud1)
    as [_ [(Hl & Hq1 & _)|(records & Hl & Hq1 & _)]]; fold t1 in Hl, Hq1;
    [congruence|].
  rewrite Hl in Hl1. injection Hl1 as ->. clear Hl.
  destruct (precreateDNS_reads p2 cluster cloud2)
    as [_ [(Hl & Hq2 & _)|(records & Hl & Hq2 & _)]]; fold t2 in Hl, Hq2;
    [congruence|].
  rewrite Hl in Hl2. injection Hl2 as ->.
  rewrite Hq1, Hq2. apply fmap_sublist, filter_sublist_impl.
  intros h Habsent2. unfold absent in *.
  destruct (recordsMapOf records1 !! ("A::" +:+ h)) as [r|] eqn:Hr; [|done].
  assert (Hsome : is_Some (recordsMapOf records1 !! ("A::" +:+ h))) by eauto.
  apply recordsMapOf_lookup in Hsome as (record & Hrecord & Hkey).
  assert (Hsome2 : is_Some (recordsMapOf records2 !! ("A::" +:+ h))).
  { apply recordsMapOf_lookup. exists record. split; [by apply Hmore|done]. }
  rewrite Habsent2 in Hsome2. by destruct Hsome2.
Qed.

Lemma precreateDNS_queue_shrinks_witness :
  queued (trace (precreateDNS plainProcess
                   (bareCluster "foo" "api.foo" "api.internal.foo")
                   (fooCloud [aliasRecord "api.foo."])))
  `sublist_of`
  queued (trace (precreateDNS plainProcess
                   (bareCluster "foo" "api.foo" "api.internal.foo")
                   (fooCloud []))).
Proof.
  apply (precreateDNS_queue_shrinks plainProcess plainProcess
           (bareCluster "foo" "api.foo" "api.internal.foo")
           (fooCloud []) (fooCloud [aliasRecord "api.foo."])
           [] [aliasRecord "api.foo."]).
  - reflexivity.
  - reflexivity.
  - intros r Hr. by apply elem_of_nil in Hr.
Defined.
